(** * Substrate matching pipeline: a shallow embedding and its properties

    The development follows four source files:
    - [substrate/shared/models/core.py]        (the data model),
    - [substrate/cloud/matching/engine.py]     ([CapabilityMatcher]),
    - [substrate/cloud/matching/semantic_engine.py] ([SemanticMatcher]),
    - [substrate/cloud/transparency/engine.py] ([TransparencyEngine]).

    Conventions of the embedding.
    - A Python [float] is an exact rational [Q]; scores are compared with
      [Qle_bool] and equated with [==].  Rounding, infinities and NaN are
      outside the model.
    - A Python [str] is a [string] of ASCII characters.
    - A [Set[str]] field is the list of its elements in iteration order;
      the set operations of the code ([&], [|], [len]) go through [gset].
    - A [Dict[str, Any]] is a [gmap string PyVal].
    - Fields filled by [uuid4()] and [datetime.now()] ([match_id],
      [step_id], [graph_id], [created_at], [timestamp]) are left out: no
      function modelled here reads them.
    - The methods of [CapabilityMatcher] run in a state monad over the
      object's fields, so that every read and write of [self] is explicit. *)

From Stdlib Require Import QArith Qabs Qminmax Lqa ZArith Ascii.
From Stdlib Require String.
From stdpp Require Import gmap strings pretty list fin_maps sorting.

(** ** Python primitives used by the source *)

Module Py.

(** [Any]-typed values stored in the string-keyed dictionaries. *)
Inductive PyVal : Type :=
| PyNone
| PyBool (b : bool)
| PyInt (z : Z)
| PyFloat (q : Q)
| PyStr (s : string)
| PyStrList (l : list string).

(** Truth value of an object in a condition ([if x:], [x or y]). *)
Definition truthy (v : PyVal) : bool :=
  match v with
  | PyNone => false
  | PyBool b => b
  | PyInt z => negb (z =? 0)%Z
  | PyFloat q => negb (Qeq_bool q 0%Q)
  | PyStr s => negb (String.eqb s "")
  | PyStrList l => match l with [] => false | _ => true end
  end.

Definition str_truthy (s : string) : bool := negb (String.eqb s "").

(** [Optional[str]] in a condition: [None] and [""] are both false. *)
Definition opt_str_truthy (o : option string) : bool :=
  match o with None => false | Some s => str_truthy s end.

Definition list_truthy {A} (l : list A) : bool :=
  match l with [] => false | _ => true end.

Definition dict_truthy (d : gmap string PyVal) : bool :=
  negb (size d =? 0)%nat.

(** [d.get(k)] followed by a truth test: a missing key gives [None]. *)
Definition dict_get_truthy (d : gmap string PyVal) (k : string) : bool :=
  match d !! k with None => false | Some v => truthy v end.

(** [str.lower()] on ASCII. *)
Definition lower_char (a : ascii) : ascii :=
  let n := nat_of_ascii a in
  if (65 <=? n)%nat && (n <=? 90)%nat then ascii_of_nat (n + 32) else a.

Fixpoint lower (s : string) : string :=
  match s with
  | EmptyString => EmptyString
  | String a r => String (lower_char a) (lower r)
  end.

(** [str.isspace] on ASCII: TAB, LF, VT, FF, CR, FS..US and space. *)
Definition is_whitespace (a : ascii) : bool :=
  let n := nat_of_ascii a in
  ((9 <=? n)%nat && (n <=? 13)%nat) || ((28 <=? n)%nat && (n <=? 32)%nat).

Definition flush (cur : list ascii) : list string :=
  match cur with
  | [] => []
  | _ => [String.string_of_list_ascii (rev cur)]
  end.

Fixpoint split_go (cur : list ascii) (s : string) : list string :=
  match s with
  | EmptyString => flush cur
  | String a r =>
      if is_whitespace a then flush cur ++ split_go [] r
      else split_go (a :: cur) r
  end.

(** [str.split()] with no argument: runs of whitespace separate the
    words and no empty word is produced. *)
Definition split (s : string) : list string := split_go [] s.

(** [sep.join(l)]. *)
Fixpoint join (sep : string) (l : list string) : string :=
  match l with
  | [] => ""
  | [x] => x
  | x :: r => x +:+ sep +:+ join sep r
  end.

(** [s[:n]] on a string, for [n >= 0]. *)
Definition str_prefix (n : nat) (s : string) : string := String.substring 0 n s.

(** [l[:k]] on a list: a negative [k] counts from the end. *)
Definition slice_to {A} (k : Z) (l : list A) : list A :=
  if (0 <=? k)%Z then take (Z.to_nat k) l
  else take (length l - Z.to_nat (- k)) l.

(** [x or y] for [x : Optional[int]]. *)
Definition int_or (x : option Z) (y : Z) : Z :=
  match x with
  | None => y
  | Some z => if (z =? 0)%Z then y else z
  end.

(** [max(a, b)] and [min(a, b)]: the first argument is kept on ties. *)
Definition max (a b : Q) : Q := if Qle_bool b a then a else b.
Definition min (a b : Q) : Q := if Qle_bool a b then a else b.
Definition abs (x : Q) : Q := if Qle_bool 0%Q x then x else (- x)%Q.

(** [a / b] on two [int]s (true division); callers guard [b <> 0]. *)
Definition truediv (a b : nat) : Q :=
  (inject_Z (Z.of_nat a) / inject_Z (Z.of_nat b))%Q.

(** [sum(l)]: starts from [0] and adds from the left. *)
Definition sum (l : list Q) : Q := fold_left Qplus l 0%Q.

(** Rounding of the non-negative fraction [a / b] to the nearest integer,
    ties to even. *)
Definition round_half_even (a b : N) : N :=
  let q := (a / b)%N in
  let r := (a mod b)%N in
  if (2 * r <? b)%N then q
  else if (b <? 2 * r)%N then (q + 1)%N
  else if N.even q then q else (q + 1)%N.

Definition two_digits (n : N) : string :=
  if (n <? 10)%N then "0" +:+ pretty n else pretty n.

(** [f"{x:.2f}"]. *)
Definition format_2f (x : Q) : string :=
  let scaled := round_half_even (Z.abs_N (Qnum x) * 100) (Npos (Qden x)) in
  (if (Qnum x <? 0)%Z then "-" else "") +:+
  pretty (scaled / 100)%N +:+ "." +:+ two_digits (scaled mod 100)%N.

(** [list.sort(key=key, reverse=True)]: the stable sort, descending.
    An element is placed before the first element whose key is not
    strictly greater than its own, so equal keys keep their order. *)
Section Sort.
Context {A : Type} (key : A → Q).

Fixpoint insert_desc (x : A) (l : list A) : list A :=
  match l with
  | [] => [x]
  | y :: r =>
      if Qle_bool (key y) (key x) then x :: y :: r
      else y :: insert_desc x r
  end.

Definition sort_desc (l : list A) : list A := foldr insert_desc [] l.
End Sort.

End Py.

(** ** Data model ([core.py]) *)

Inductive PrivacyLevel := PUBLIC | NETWORK_PRIVACY | PRIVATE | CONFIDENTIAL.

Inductive CapabilityType := SKILL | RESOURCE | KNOWLEDGE | NETWORK | TIME | FUNDING.

Inductive ProblemDomain :=
  ROBOTICS | RESEARCH | SOFTWARE | HARDWARE | BIOLOGY | CLIMATE | HEALTH
| EDUCATION | MANUFACTURING | OTHER.

#[global] Instance CapabilityType_eq_dec : EqDecision CapabilityType.
Proof. solve_decision. Defined.

(** The [.value] of each enum member. *)
Definition CapabilityType_value (t : CapabilityType) : string :=
  match t with
  | SKILL => "skill" | RESOURCE => "resource" | KNOWLEDGE => "knowledge"
  | NETWORK => "network" | TIME => "time" | FUNDING => "funding"
  end.

Definition PrivacyLevel_value (p : PrivacyLevel) : string :=
  match p with
  | PUBLIC => "public" | NETWORK_PRIVACY => "network"
  | PRIVATE => "private" | CONFIDENTIAL => "confidential"
  end.

Definition ProblemDomain_value (d : ProblemDomain) : string :=
  match d with
  | ROBOTICS => "robotics" | RESEARCH => "research" | SOFTWARE => "software"
  | HARDWARE => "hardware" | BIOLOGY => "biology" | CLIMATE => "climate"
  | HEALTH => "health" | EDUCATION => "education"
  | MANUFACTURING => "manufacturing" | OTHER => "other"
  end.

Module Capability.
Record t := mk {
  capability_id : string;
  type : CapabilityType;
  name : string;
  description : string;
  proficiency : Q;
  confidence : Q;
  evidence : list string;
  privacy_level : PrivacyLevel;
  tags : list string;
  metadata : gmap string Py.PyVal
}.
End Capability.

Module Need.
Record t := mk {
  need_id : string;
  type : CapabilityType;
  name : string;
  description : string;
  urgency : Q;
  importance : Q;
  domain : ProblemDomain;
  context : string;
  constraints : gmap string Py.PyVal;
  tags : list string
}.
End Need.

Module UserProfile.
Record t := mk {
  user_id : string;
  capabilities : list Capability.t;
  needs : list Need.t;
  domains : list ProblemDomain;
  location_region : option string;
  timezone : option string;
  availability : gmap string Py.PyVal;
  preferences : gmap string Py.PyVal
}.
End UserProfile.

Module ProvenanceStep.
Record t := mk {
  operation : string;
  inputs : gmap string Py.PyVal;
  outputs : gmap string Py.PyVal;
  reasoning : string;
  confidence : Q;
  alternatives_considered : list (gmap string Py.PyVal)
}.
End ProvenanceStep.

Module ProvenanceGraph.
Record t := mk {
  decision_type : string;
  steps : list ProvenanceStep.t;
  metadata : gmap string Py.PyVal
}.

(** [ProvenanceGraph(decision_type=...)]. *)
Definition new (decision_type : string) : t := mk decision_type [] ∅.

(** [self.steps.append(step)]. *)
Definition add_step (g : t) (step : ProvenanceStep.t) : t :=
  mk (decision_type g) (steps g ++ [step]) (metadata g).
End ProvenanceGraph.

Module Match.
Record t := mk {
  need : Need.t;
  need_user_id : string;
  capability : Capability.t;
  capability_user_id : string;
  match_score : Q;
  complementarity_score : Q;
  feasibility_score : Q;
  provenance : ProvenanceGraph.t;
  confidence : Q;
  uncertainty_factors : list string;
  evidence : list string;
  similar_past_matches : list string;
  verification_methods : list string
}.

(** Attribute assignments [match.f = v] of the source. *)
Definition set_match_score (v : Q) (m : t) : t :=
  mk (need m) (need_user_id m) (capability m) (capability_user_id m)
     v (complementarity_score m) (feasibility_score m) (provenance m)
     (confidence m) (uncertainty_factors m) (evidence m)
     (similar_past_matches m) (verification_methods m).
Definition set_complementarity_score (v : Q) (m : t) : t :=
  mk (need m) (need_user_id m) (capability m) (capability_user_id m)
     (match_score m) v (feasibility_score m) (provenance m)
     (confidence m) (uncertainty_factors m) (evidence m)
     (similar_past_matches m) (verification_methods m).
Definition set_feasibility_score (v : Q) (m : t) : t :=
  mk (need m) (need_user_id m) (capability m) (capability_user_id m)
     (match_score m) (complementarity_score m) v (provenance m)
     (confidence m) (uncertainty_factors m) (evidence m)
     (similar_past_matches m) (verification_methods m).
Definition set_confidence (v : Q) (m : t) : t :=
  mk (need m) (need_user_id m) (capability m) (capability_user_id m)
     (match_score m) (complementarity_score m) (feasibility_score m)
     (provenance m) v (uncertainty_factors m) (evidence m)
     (similar_past_matches m) (verification_methods m).
Definition set_uncertainty_factors (v : list string) (m : t) : t :=
  mk (need m) (need_user_id m) (capability m) (capability_user_id m)
     (match_score m) (complementarity_score m) (feasibility_score m)
     (provenance m) (confidence m) v (evidence m)
     (similar_past_matches m) (verification_methods m).
Definition set_evidence (v : list string) (m : t) : t :=
  mk (need m) (need_user_id m) (capability m) (capability_user_id m)
     (match_score m) (complementarity_score m) (feasibility_score m)
     (provenance m) (confidence m) (uncertainty_factors m) v
     (similar_past_matches m) (verification_methods m).
Definition set_verification_methods (v : list string) (m : t) : t :=
  mk (need m) (need_user_id m) (capability m) (capability_user_id m)
     (match_score m) (complementarity_score m) (feasibility_score m)
     (provenance m) (confidence m) (uncertainty_factors m) (evidence m)
     (similar_past_matches m) v.

(** [match.provenance.add_step(step)]. *)
Definition add_step (step : ProvenanceStep.t) (m : t) : t :=
  mk (need m) (need_user_id m) (capability m) (capability_user_id m)
     (match_score m) (complementarity_score m) (feasibility_score m)
     (ProvenanceGraph.add_step (provenance m) step)
     (confidence m) (uncertainty_factors m) (evidence m)
     (similar_past_matches m) (verification_methods m).

(** [Match(need=..., need_user_id=..., capability=...,
    capability_user_id=..., provenance=...)]: the other fields take the
    defaults of the dataclass. *)
Definition new (need : Need.t) (need_user_id : string)
    (capability : Capability.t) (capability_user_id : string)
    (provenance : ProvenanceGraph.t) : t :=
  mk need need_user_id capability capability_user_id
     0%Q 0%Q 0%Q provenance 0%Q [] [] [] [].
End Match.

(** ** The transparency engine ([transparency/engine.py])

    [TransparencyEngine] keeps no state besides its constant templates, so
    its methods are plain functions. *)

Module TransparencyEngine.

Definition create_provenance_graph (decision_type : string) : ProvenanceGraph.t :=
  ProvenanceGraph.new decision_type.

Definition _estimate_confidence_interval (m : Match.t) : Q * Q :=
  let uncertainty := (1 - Match.confidence m)%Q in
  let margin := (Match.match_score m * uncertainty * (3 # 10))%Q in
  (Py.max 0%Q (Match.match_score m - margin)%Q,
   Py.min 1%Q (Match.match_score m + margin)%Q).

Definition _interpret_score (score : Q) : string :=
  if Qle_bool (8 # 10) score then "Excellent match"
  else if Qle_bool (6 # 10) score then "Good match"
  else if Qle_bool (4 # 10) score then "Moderate match"
  else "Weak match".

End TransparencyEngine.

(** ** The capability matcher ([matching/engine.py]) *)

Record MatchingConfig := {
  min_match_score : Q;
  max_matches_per_need : Z;
  include_provenance : bool;
  weight_complementarity : Q;
  weight_proficiency : Q;
  weight_feasibility : Q
}.

(** [MatchingConfig()]: the defaults of the dataclass. *)
Definition default_config : MatchingConfig :=
  {| min_match_score := 4 # 10;
     max_matches_per_need := 10;
     include_provenance := true;
     weight_complementarity := 4 # 10;
     weight_proficiency := 3 # 10;
     weight_feasibility := 3 # 10 |}.

Module CapabilityMatcher.

Abbreviation posting := (UserProfile.t * Capability.t)%type.

(** The fields of the object; [transparency] is stateless and left out. *)
Record t := mk {
  config : MatchingConfig;
  capability_index : gmap string (list posting);
  match_history : list Match.t;
  success_patterns : gmap string Q
}.

(** [CapabilityMatcher(config)]. *)
Definition init (cfg : option MatchingConfig) : t :=
  mk (default default_config cfg) ∅ [] ∅.

(** *** Methods as state transformers over [self] *)

Definition M (A : Type) : Type := t → A * t.

#[global] Instance M_ret : MRet M := λ A a self, (a, self).

#[global] Instance M_bind : MBind M :=
  λ A B k m self, let (a, self') := m self in k a self'.

(** [for x in l: acc = body(acc, x)]. *)
Fixpoint foldM {A B} (body : B → A → M B) (acc : B) (l : list A) : M B :=
  match l with
  | [] => mret acc
  | x :: r => acc' ← body acc x; foldM body acc' r
  end.

(** [for x in l: body(x)]. *)
Fixpoint forM_ {A} (body : A → M unit) (l : list A) : M unit :=
  match l with
  | [] => mret ()
  | x :: r => body x;; forM_ body r
  end.

Definition run {A} (m : M A) (self : t) : A := fst (m self).
Definition exec {A} (m : M A) (self : t) : t := snd (m self).

(** Reads of [self]. *)
Definition get_config : M MatchingConfig := λ self, (config self, self).
Definition get_history : M (list Match.t) := λ self, (match_history self, self).

(** [self.capability_index.get(key, [])]: a missing key is not created. *)
Definition index_get (key : string) : M (list posting) :=
  λ self, (default [] (capability_index self !! key), self).

(** [self.success_patterns[key]] guarded by [key in self.success_patterns]. *)
Definition patterns_get (key : string) : M (option Q) :=
  λ self, (success_patterns self !! key, self).

(** Writes of [self]. *)

(** [self.capability_index[key].append(v)]: the index is a
    [defaultdict(list)], so a missing key starts from the empty list. *)
Definition index_append (key : string) (v : posting) : M unit :=
  λ self,
    ((), mk (config self)
            (<[key := default [] (capability_index self !! key) ++ [v]]>
               (capability_index self))
            (match_history self) (success_patterns self)).

(** [self.match_history.append(m)]. *)
Definition history_append (m : Match.t) : M unit :=
  λ self,
    ((), mk (config self) (capability_index self)
            (match_history self ++ [m]) (success_patterns self)).

(** [self.success_patterns[key] = v]. *)
Definition patterns_set (key : string) (v : Q) : M unit :=
  λ self,
    ((), mk (config self) (capability_index self) (match_history self)
            (<[key := v]> (success_patterns self))).

(** *** [index_user_profile] *)

Definition index_capability (profile : UserProfile.t) (capability : Capability.t)
    : M unit :=
  index_append ("type:" +:+ CapabilityType_value (Capability.type capability))
               (profile, capability);;
  forM_ (λ tag, index_append ("tag:" +:+ tag) (profile, capability))
        (Capability.tags capability);;
  forM_ (λ token,
           if (3 <? String.length token)%nat
           then index_append ("token:" +:+ token) (profile, capability)
           else mret ())
        (Py.split (Py.lower (Capability.name capability))).

Definition index_user_profile (profile : UserProfile.t) : M unit :=
  forM_ (index_capability profile) (UserProfile.capabilities profile).

(** *** [_retrieve_candidates] *)

Definition candidate_key (pc : posting) : string * string :=
  (UserProfile.user_id pc.1, Capability.capability_id pc.2).

(** The deduplication loop: [seen] holds the keys met so far and a posting
    is kept when its key is new. *)
Fixpoint dedup_go (seen : gset (string * string)) (l : list posting)
    : list posting :=
  match l with
  | [] => []
  | pc :: r =>
      if decide (candidate_key pc ∈ seen) then dedup_go seen r
      else pc :: dedup_go ({[candidate_key pc]} ∪ seen) r
  end.

Definition dedup (l : list posting) : list posting := dedup_go ∅ l.

Definition not_self (need_user_profile : UserProfile.t) (pc : posting) : bool :=
  negb (String.eqb (UserProfile.user_id pc.1)
                   (UserProfile.user_id need_user_profile)).

(** The three retrieval strategies, concatenated in the order of the code. *)
Definition gather_candidates (need : Need.t) : M (list posting) :=
  type_matches ← index_get ("type:" +:+ CapabilityType_value (Need.type need));
  candidates ←
    foldM (λ acc tag,
             tag_matches ← index_get ("tag:" +:+ tag);
             mret (acc ++ tag_matches))
          ([] ++ type_matches) (Need.tags need);
  foldM (λ acc token,
           if (3 <? String.length token)%nat then
             token_matches ← index_get ("token:" +:+ token);
             mret (acc ++ token_matches)
           else mret acc)
        candidates (Py.split (Py.lower (Need.name need))).

Definition _retrieve_candidates (need : Need.t)
    (need_user_profile : UserProfile.t) (provenance : ProvenanceGraph.t)
    : M (list posting * ProvenanceGraph.t) :=
  candidates ← gather_candidates need;
  let unique_candidates := dedup candidates in
  let candidates := filter (λ pc, not_self need_user_profile pc) unique_candidates in
  let provenance :=
    ProvenanceGraph.add_step provenance
      (ProvenanceStep.mk "candidate_retrieval"
         {[ "need_type" := Py.PyStr (CapabilityType_value (Need.type need));
            "need_tags" := Py.PyStrList (Need.tags need) ]}
         {[ "candidates_found" := Py.PyInt (Z.of_nat (length candidates)) ]}
         ("Retrieved " +:+ pretty (length candidates) +:+
          " candidates using type, tag, and semantic matching")
         (9 # 10) []) in
  mret (candidates, provenance).

(** *** The sub-scores *)

(** The token set of a need or capability: the words of the lower-cased
    name and description, then [update]d with the tags. *)
Definition token_set (name description : string) (tags : list string)
    : gset string :=
  list_to_set (Py.split (Py.lower name) ++ Py.split (Py.lower description))
  ∪ list_to_set tags.

Definition _compute_semantic_similarity (need : Need.t)
    (capability : Capability.t) : Q :=
  let need_tokens :=
    token_set (Need.name need) (Need.description need) (Need.tags need) in
  let cap_tokens :=
    token_set (Capability.name capability) (Capability.description capability)
              (Capability.tags capability) in
  if (size need_tokens =? 0)%nat || (size cap_tokens =? 0)%nat then 0%Q
  else
    let intersection := size (need_tokens ∩ cap_tokens) in
    let union := size (need_tokens ∪ cap_tokens) in
    if (0 <? union)%nat then Py.truediv intersection union else 0%Q.

(** [{(c.type.value, c.name) for c in profile.capabilities}]. *)
Definition capability_pairs (profile : UserProfile.t) : gset (string * string) :=
  list_to_set
    (map (λ c, (CapabilityType_value (Capability.type c), Capability.name c))
         (UserProfile.capabilities profile)).

Definition _compute_complementarity (need_user_profile : UserProfile.t)
    (capability_user_profile : UserProfile.t) : Q :=
  let user1_caps := capability_pairs need_user_profile in
  let user2_caps := capability_pairs capability_user_profile in
  let overlap := size (user1_caps ∩ user2_caps) in
  let total := size (user1_caps ∪ user2_caps) in
  if (total =? 0)%nat then 5 # 10
  else
    let overlap_ratio := Py.truediv overlap total in
    let optimal_overlap := 2 # 10 in
    let distance := Py.abs (overlap_ratio - optimal_overlap)%Q in
    let complementarity := (1 - distance * 2)%Q in
    Py.max 0%Q (Py.min 1%Q complementarity).

Definition _compute_feasibility (need_user_profile : UserProfile.t)
    (capability_user_profile : UserProfile.t) (need : Need.t) : Q :=
  let feasibility := 1%Q in
  let feasibility :=
    if Py.opt_str_truthy (UserProfile.timezone need_user_profile)
       && Py.opt_str_truthy (UserProfile.timezone capability_user_profile)
       && negb (bool_decide (UserProfile.timezone need_user_profile
                             = UserProfile.timezone capability_user_profile))
    then (feasibility * (8 # 10))%Q else feasibility in
  let feasibility :=
    if Py.dict_truthy (UserProfile.availability need_user_profile)
       && Py.dict_truthy (UserProfile.availability capability_user_profile)
    then (feasibility * (9 # 10))%Q else feasibility in
  let feasibility :=
    if Py.dict_truthy (Need.constraints need)
       && Py.dict_get_truthy (Need.constraints need) "budget"
    then (feasibility * (95 # 100))%Q else feasibility in
  let feasibility :=
    if negb (Qle_bool (Need.urgency need) (8 # 10))
    then (feasibility * (9 # 10))%Q else feasibility in
  Py.max 0%Q (Py.min 1%Q feasibility).

Definition same_type_pair (need : Need.t) (capability : Capability.t)
    (m : Match.t) : bool :=
  bool_decide (Need.type (Match.need m) = Need.type need)
  && bool_decide (Capability.type (Match.capability m) = Capability.type capability).

Definition _apply_historical_learning (need : Need.t)
    (capability : Capability.t) : M Q :=
  match_history ← get_history;
  mret
    (if negb (Py.list_truthy match_history) then 0%Q
     else
       let similar_matches :=
         filter (λ m, same_type_pair need capability m) match_history in
       if negb (Py.list_truthy similar_matches) then 0%Q
       else
         let avg_score :=
           (Py.sum (map Match.match_score similar_matches)
            / inject_Z (Z.of_nat (length similar_matches)))%Q in
         ((avg_score - (5 # 10)) * (2 # 10))%Q).

Definition _compute_confidence (m : Match.t) : M Q :=
  match_history ← get_history;
  let confidence_factors := [] in
  let confidence_factors := confidence_factors ++ [Match.match_score m] in
  let confidence_factors :=
    confidence_factors
    ++ [if Py.list_truthy (Match.evidence m) then 9 # 10 else 5 # 10] in
  let confidence_factors := confidence_factors ++ [8 # 10] in
  let confidence_factors :=
    confidence_factors
    ++ [if Py.list_truthy match_history then 8 # 10 else 5 # 10] in
  mret (Py.sum confidence_factors
        / inject_Z (Z.of_nat (length confidence_factors)))%Q.

(** [need.tags & capability.tags], listed in the order of [need.tags]. *)
Definition common_tags (need : Need.t) (capability : Capability.t) : list string :=
  filter (λ tag, bool_decide (tag ∈ Capability.tags capability)) (Need.tags need).

Definition _gather_evidence (need : Need.t) (capability : Capability.t)
    : list string :=
  let evidence := [] in
  let evidence :=
    if Py.str_truthy (Need.description need)
       && Py.str_truthy (Capability.description capability)
    then evidence ++ ["Need and capability descriptions are aligned"]
    else evidence in
  let evidence :=
    if Py.list_truthy (common_tags need capability)
    then evidence ++ ["Shared domain tags: "
                      +:+ Py.join ", " (common_tags need capability)]
    else evidence in
  let evidence :=
    if Qle_bool (7 # 10) (Capability.proficiency capability)
    then evidence ++ ["High proficiency level: "
                      +:+ Py.format_2f (Capability.proficiency capability)]
    else evidence in
  evidence.

Definition _identify_uncertainties (need_user_profile : UserProfile.t)
    (capability_user_profile : UserProfile.t) : M (list string) :=
  match_history ← get_history;
  let uncertainties := [] in
  let uncertainties :=
    if (length (UserProfile.capabilities need_user_profile) <? 3)%nat
    then uncertainties ++ ["Limited capability data for need user"]
    else uncertainties in
  let uncertainties :=
    if (length (UserProfile.capabilities capability_user_profile) <? 3)%nat
    then uncertainties ++ ["Limited capability data for capability user"]
    else uncertainties in
  let uncertainties :=
    if negb (Py.list_truthy match_history)
    then uncertainties ++ ["No historical match data for calibration"]
    else uncertainties in
  let uncertainties :=
    if negb (Py.opt_str_truthy (UserProfile.timezone need_user_profile))
    then uncertainties ++ ["Unknown timezone for need user"]
    else uncertainties in
  let uncertainties :=
    if negb (Py.opt_str_truthy (UserProfile.timezone capability_user_profile))
    then uncertainties ++ ["Unknown timezone for capability user"]
    else uncertainties in
  mret uncertainties.

(** *** [_score_match] *)

Definition _score_match (need : Need.t) (need_user_profile : UserProfile.t)
    (capability : Capability.t) (capability_user_profile : UserProfile.t)
    (provenance : ProvenanceGraph.t) : M Match.t :=
  let m :=
    Match.new need (UserProfile.user_id need_user_profile)
              capability (UserProfile.user_id capability_user_profile)
              (TransparencyEngine.create_provenance_graph "match_scoring") in
  (* Component 1: semantic similarity *)
  let semantic_score := _compute_semantic_similarity need capability in
  let m :=
    Match.add_step
      (ProvenanceStep.mk "semantic_similarity"
         {[ "need_name" := Py.PyStr (Need.name need);
            "capability_name" := Py.PyStr (Capability.name capability) ]}
         {[ "score" := Py.PyFloat semantic_score ]}
         "Computed semantic similarity between need and capability"
         (8 # 10) []) m in
  (* Component 2: complementarity *)
  let complementarity_score :=
    _compute_complementarity need_user_profile capability_user_profile in
  let m := Match.set_complementarity_score complementarity_score m in
  let m :=
    Match.add_step
      (ProvenanceStep.mk "complementarity_analysis" ∅
         {[ "score" := Py.PyFloat complementarity_score ]}
         "Analyzed how well the users' capabilities complement each other"
         (7 # 10) []) m in
  (* Component 3: feasibility *)
  let feasibility_score :=
    _compute_feasibility need_user_profile capability_user_profile need in
  let m := Match.set_feasibility_score feasibility_score m in
  let m :=
    Match.add_step
      (ProvenanceStep.mk "feasibility_assessment" ∅
         {[ "score" := Py.PyFloat feasibility_score ]}
         "Assessed practical feasibility (location, time, resources)"
         (75 # 100) []) m in
  (* Component 4: historical success patterns *)
  historical_boost ← _apply_historical_learning need capability;
  match_history ← get_history;
  let m :=
    Match.add_step
      (ProvenanceStep.mk "historical_learning" ∅
         {[ "boost" := Py.PyFloat historical_boost ]}
         ("Applied learning from " +:+ pretty (length match_history)
          +:+ " past matches")
         (if Py.list_truthy match_history then 6 # 10 else 3 # 10) []) m in
  (* Combine scores *)
  config ← get_config;
  let m :=
    Match.set_match_score
      (semantic_score * (3 # 10)
       + complementarity_score * weight_complementarity config
       + Capability.proficiency capability * weight_proficiency config
       + feasibility_score * weight_feasibility config
       + historical_boost * (1 # 10))%Q m in
  confidence ← _compute_confidence m;
  let m := Match.set_confidence confidence m in
  let m := Match.set_evidence (_gather_evidence need capability) m in
  let m :=
    Match.set_verification_methods
      [ "Check " +:+ UserProfile.user_id capability_user_profile
        +:+ "'s past work in this domain";
        "Verify the capability description aligns with the need";
        "Consider if practical constraints are manageable" ] m in
  uncertainties ← _identify_uncertainties need_user_profile capability_user_profile;
  mret (Match.set_uncertainty_factors uncertainties m).

(** *** Ranking *)

Definition _add_ranking_reasoning (matches : list Match.t)
    (provenance : ProvenanceGraph.t) : ProvenanceGraph.t :=
  match matches with
  | [] => provenance
  | first :: _ =>
      let final := List.last matches first in
      ProvenanceGraph.add_step provenance
        (ProvenanceStep.mk "ranking"
           {[ "total_matches" := Py.PyInt (Z.of_nat (length matches)) ]}
           {[ "top_match_score" := Py.PyFloat (Match.match_score first);
              "score_range" :=
                Py.PyStr (Py.format_2f (Match.match_score final) +:+ " - "
                          +:+ Py.format_2f (Match.match_score first)) ]}
           ("Ranked " +:+ pretty (length matches) +:+
            " matches by combined score of semantic similarity, " +:+
            "complementarity, proficiency, and feasibility")
           (85 # 100) [])
  end.

(** The scoring loop of [find_matches]: a candidate is scored and kept
    when its score reaches the configured minimum. *)
Definition score_candidates (need : Need.t) (need_user_profile : UserProfile.t)
    (provenance : ProvenanceGraph.t) (candidates : list posting)
    : M (list Match.t) :=
  foldM (λ scored_matches pc,
           m ← _score_match need need_user_profile pc.2 pc.1 provenance;
           config ← get_config;
           mret (if Qle_bool (min_match_score config) (Match.match_score m)
                 then scored_matches ++ [m]
                 else scored_matches))
        [] candidates.

(** [find_matches] together with the provenance graph of the call, which
    the source builds and then drops. *)
Definition find_matches_traced (need : Need.t)
    (need_user_profile : UserProfile.t) (max_results : option Z)
    : M (list Match.t * ProvenanceGraph.t) :=
  let provenance :=
    TransparencyEngine.create_provenance_graph "capability_match" in
  '(candidates, provenance) ←
    _retrieve_candidates need need_user_profile provenance;
  scored_matches ← score_candidates need need_user_profile provenance candidates;
  let scored_matches := Py.sort_desc Match.match_score scored_matches in
  config ← get_config;
  let max_results := Py.int_or max_results (max_matches_per_need config) in
  let top_matches := Py.slice_to max_results scored_matches in
  let provenance := _add_ranking_reasoning top_matches provenance in
  mret (top_matches, provenance).

Definition find_matches (need : Need.t) (need_user_profile : UserProfile.t)
    (max_results : option Z) : M (list Match.t) :=
  r ← find_matches_traced need need_user_profile max_results;
  mret r.1.

(** *** [learn_from_outcome] *)

Definition learn_from_outcome (m : Match.t) (success : bool) : M unit :=
  history_append m;;
  let pattern_key :=
    CapabilityType_value (Need.type (Match.need m)) +:+ ":"
    +:+ CapabilityType_value (Capability.type (Match.capability m)) in
  current ← patterns_get pattern_key;
  match current with
  | None =>
      patterns_set pattern_key (if success then Match.match_score m else 0%Q)
  | Some current =>
      let alpha := 3 # 10 in
      let new_value := if success then Match.match_score m else 0%Q in
      patterns_set pattern_key (alpha * new_value + (1 - alpha) * current)%Q
  end.

End CapabilityMatcher.

(** ** The semantic matcher ([matching/semantic_engine.py])

    The embedding model ([SentenceTransformer]) and the arrays it returns
    ([numpy.ndarray]) come from outside the repository.  They are taken as
    parameters: the array type, the truth value of an array in a condition
    ([None] when numpy raises [ValueError], as it does for an array with
    more than one element) and the cosine similarity of two arrays. *)

Module SemanticMatcher.

Record SemanticMatchingConfig := {
  embedding_model_name : string;
  min_match_score : Q;
  max_matches_per_need : Z;
  similarity_threshold : Q;
  weight_semantic : Q;
  weight_complementarity : Q;
  weight_proficiency : Q;
  weight_feasibility : Q;
  chromadb_path : string
}.

(** [SemanticMatchingConfig()]. *)
Definition default_config : SemanticMatchingConfig :=
  {| embedding_model_name := "all-MiniLM-L6-v2";
     min_match_score := 4 # 10;
     max_matches_per_need := 10;
     similarity_threshold := 3 # 10;
     weight_semantic := 4 # 10;
     weight_complementarity := 3 # 10;
     weight_proficiency := 2 # 10;
     weight_feasibility := 1 # 10;
     chromadb_path := "./substrate_data/chroma" |}.

Section WithEmbeddings.
Variable ndarray : Type.
Variable ndarray_bool : ndarray → option bool.
Variable _cosine_similarity : ndarray → ndarray → Q.

(** The fields read by scoring; [embedding_model] is [None] when
    sentence-transformers is not installed, and otherwise its [encode]. *)
Record t := mk {
  config : SemanticMatchingConfig;
  embedding_model : option (string → ndarray);
  memory_capabilities : list (UserProfile.t * Capability.t * ndarray);
  match_history : list Match.t
}.

Definition _capability_to_text (capability : Capability.t) : string :=
  let parts :=
    [ "Capability: " +:+ Capability.name capability;
      "Description: " +:+ Capability.description capability;
      "Type: " +:+ CapabilityType_value (Capability.type capability) ] in
  let parts :=
    if Py.list_truthy (Capability.tags capability)
    then parts ++ ["Tags: " +:+ Py.join ", " (Capability.tags capability)]
    else parts in
  Py.join " | " parts.

Definition _need_to_text (need : Need.t) : string :=
  let parts :=
    [ "Need: " +:+ Need.name need;
      "Description: " +:+ Need.description need;
      "Type: " +:+ CapabilityType_value (Need.type need);
      "Domain: " +:+ ProblemDomain_value (Need.domain need) ] in
  let parts :=
    if Py.list_truthy (Need.tags need)
    then parts ++ ["Tags: " +:+ Py.join ", " (Need.tags need)]
    else parts in
  let parts :=
    if Py.str_truthy (Need.context need)
    then parts ++ ["Context: " +:+ Py.str_prefix 200 (Need.context need)]
    else parts in
  Py.join " | " parts.

Definition _embed_capability (self : t) (capability : Capability.t)
    : option ndarray :=
  match embedding_model self with
  | None => None
  | Some encode => Some (encode (_capability_to_text capability))
  end.

Definition _embed_need (self : t) (need : Need.t) : option ndarray :=
  match embedding_model self with
  | None => None
  | Some encode => Some (encode (_need_to_text need))
  end.

Definition _keyword_similarity (need : Need.t) (capability : Capability.t) : Q :=
  let need_words :=
    CapabilityMatcher.token_set (Need.name need) (Need.description need)
                                (Need.tags need) in
  let cap_words :=
    CapabilityMatcher.token_set (Capability.name capability)
                                (Capability.description capability)
                                (Capability.tags capability) in
  if (size need_words =? 0)%nat || (size cap_words =? 0)%nat then 0%Q
  else
    let intersection := size (need_words ∩ cap_words) in
    let union := size (need_words ∪ cap_words) in
    if (0 <? union)%nat then Py.truediv intersection union else 0%Q.

Definition _compute_complementarity (profile1 profile2 : UserProfile.t) : Q :=
  let caps1 := CapabilityMatcher.capability_pairs profile1 in
  let caps2 := CapabilityMatcher.capability_pairs profile2 in
  let overlap := size (caps1 ∩ caps2) in
  let total := size (caps1 ∪ caps2) in
  if (total =? 0)%nat then 5 # 10
  else
    let overlap_ratio := Py.truediv overlap total in
    let optimal := 2 # 10 in
    let distance := Py.abs (overlap_ratio - optimal)%Q in
    Py.max 0%Q (Py.min 1%Q (1 - distance * 2)%Q).

Definition _compute_feasibility (profile1 profile2 : UserProfile.t)
    (need : Need.t) : Q :=
  let feasibility := 1%Q in
  let feasibility :=
    if Py.opt_str_truthy (UserProfile.timezone profile1)
       && Py.opt_str_truthy (UserProfile.timezone profile2)
    then
      if negb (bool_decide (UserProfile.timezone profile1
                            = UserProfile.timezone profile2))
      then (feasibility * (9 # 10))%Q else feasibility
    else feasibility in
  let feasibility :=
    if negb (Qle_bool (Need.urgency need) (8 # 10))
    then (feasibility * (9 # 10))%Q else feasibility in
  feasibility.

Definition _compute_confidence (self : t) (m : Match.t)
    (has_embeddings : bool) : Q :=
  let factors := [] in
  let factors := factors ++ [if has_embeddings then 9 # 10 else 6 # 10] in
  let factors := factors ++ [Match.match_score m] in
  let factors :=
    factors ++ [if Py.list_truthy (Match.evidence m) then 8 # 10 else 5 # 10] in
  let factors :=
    factors ++ [if (10 <? length (match_history self))%nat
                then 8 # 10 else 5 # 10] in
  (Py.sum factors / inject_Z (Z.of_nat (length factors)))%Q.

(** [not need_embedding] for [need_embedding : Optional[ndarray]];
    [None] when evaluating the condition raises. *)
Definition not_embedding (need_embedding : option ndarray) : option bool :=
  match need_embedding with
  | None => Some true
  | Some e => negb <$> ndarray_bool e
  end.

(** [_score_match]; the result is [None] when the call raises. *)
Definition _score_match (self : t) (need : Need.t)
    (need_user_profile : UserProfile.t) (capability : Capability.t)
    (capability_user_profile : UserProfile.t)
    (need_embedding : option ndarray) (provenance : ProvenanceGraph.t)
    : option Match.t :=
  let m :=
    Match.new need (UserProfile.user_id need_user_profile)
              capability (UserProfile.user_id capability_user_profile)
              (TransparencyEngine.create_provenance_graph
                 "semantic_match_scoring") in
  (* 1. Semantic similarity *)
  let semantic_sim :=
    match need_embedding with
    | Some need_embedding =>
        match _embed_capability self capability with
        | Some cap_embedding => _cosine_similarity need_embedding cap_embedding
        | None => 5 # 10
        end
    | None => _keyword_similarity need capability
    end in
  let m :=
    Match.add_step
      (ProvenanceStep.mk "semantic_similarity" ∅
         {[ "similarity" := Py.PyFloat semantic_sim ]}
         "Computed deep semantic similarity using embeddings (not just keywords)"
         (if bool_decide (is_Some need_embedding) then 9 # 10 else 6 # 10)
         []) m in
  (* 2. Complementarity *)
  let complementarity :=
    _compute_complementarity need_user_profile capability_user_profile in
  let m := Match.set_complementarity_score complementarity m in
  (* 3. Feasibility *)
  let feasibility :=
    _compute_feasibility need_user_profile capability_user_profile need in
  let m := Match.set_feasibility_score feasibility m in
  (* 4. Combined score *)
  let m :=
    Match.set_match_score
      (semantic_sim * weight_semantic (config self)
       + complementarity * weight_complementarity (config self)
       + Capability.proficiency capability * weight_proficiency (config self)
       + feasibility * weight_feasibility (config self))%Q m in
  (* 5. Confidence *)
  let m :=
    Match.set_confidence
      (_compute_confidence self m (bool_decide (is_Some need_embedding))) m in
  (* 6. Evidence *)
  let m :=
    Match.set_evidence
      [ "Semantic similarity: " +:+ Py.format_2f semantic_sim;
        "Complementarity: " +:+ Py.format_2f complementarity;
        "Proficiency: " +:+ Py.format_2f (Capability.proficiency capability);
        "Feasibility: " +:+ Py.format_2f feasibility ] m in
  (* 7. Verification methods *)
  let m :=
    Match.set_verification_methods
      [ "Review the capability description for alignment";
        "Check if semantic similarity score makes sense";
        "Verify proficiency level is adequate" ] m in
  (* 8. Uncertainty factors *)
  let uncertainty_factors := [] in
  no_embedding ← not_embedding need_embedding;
  let uncertainty_factors :=
    if no_embedding : bool
    then uncertainty_factors ++ ["No embeddings available (keyword fallback)"]
    else uncertainty_factors in
  let uncertainty_factors :=
    if (length (match_history self) <? 10)%nat
    then uncertainty_factors ++ ["Limited historical data for calibration"]
    else uncertainty_factors in
  Some (Match.set_uncertainty_factors uncertainty_factors m).

End WithEmbeddings.

Arguments mk {ndarray}.
Arguments config {ndarray}.
Arguments embedding_model {ndarray}.
Arguments match_history {ndarray}.
Arguments _score_match {ndarray}.

End SemanticMatcher.

(** ** Vocabulary of the statements *)

Module Spec.
Import CapabilityMatcher.

(** A computation that leaves every field of [self] as it found it. *)
Definition readonly {A} (m : M A) : Prop := ∀ self, exec m self = self.

(** The ordering of the ranked list: [a] may stand before [b]. *)
Definition score_ge (a b : Match.t) : Prop :=
  (Match.match_score b <= Match.match_score a)%Q.

Definition same_score (v : Q) (m : Match.t) : bool :=
  Qeq_bool (Match.match_score m) v.

Definition above_threshold (self : t) (m : Match.t) : bool :=
  Qle_bool (min_match_score (config self)) (Match.match_score m).

(** The candidates of a call of [find_matches], scored one by one, in the
    order in which retrieval lists them. *)
Definition scored_in_retrieval_order (need : Need.t)
    (need_user_profile : UserProfile.t) (self : t) : list Match.t :=
  let r :=
    run (_retrieve_candidates need need_user_profile
           (TransparencyEngine.create_provenance_graph "capability_match"))
        self in
  map (λ pc : posting,
         run (_score_match need need_user_profile pc.2 pc.1 r.2) self)
      r.1.

(** The keys under which a capability is posted, in posting order. *)
Definition capability_keys (capability : Capability.t) : list string :=
  ("type:" +:+ CapabilityType_value (Capability.type capability))
  :: map (λ tag, "tag:" +:+ tag) (Capability.tags capability)
  ++ map (λ token, "token:" +:+ token)
         (filter (λ token, (3 <? String.length token)%nat)
                 (Py.split (Py.lower (Capability.name capability)))).

(** The keys looked up for a need, in lookup order. *)
Definition need_keys (need : Need.t) : list string :=
  ("type:" +:+ CapabilityType_value (Need.type need))
  :: map (λ tag, "tag:" +:+ tag) (Need.tags need)
  ++ map (λ token, "token:" +:+ token)
         (filter (λ token, (3 <? String.length token)%nat)
                 (Py.split (Py.lower (Need.name need)))).

(** The postings one pass of [index_user_profile] appends under [key]. *)
Definition profile_postings (profile : UserProfile.t) (key : string)
    : list posting :=
  flat_map (λ c, flat_map (λ k, if decide (k = key) then [(profile, c)] else [])
                          (capability_keys c))
           (UserProfile.capabilities profile).

(** [self.capability_index.get(key, [])] as a function of the state. *)
Definition postings (self : t) (key : string) : list posting :=
  default [] (capability_index self !! key).

(** Recording a list of outcomes, one [learn_from_outcome] each. *)
Definition learn_all (outcomes : list (Match.t * bool)) : M unit :=
  forM_ (λ o : Match.t * bool, learn_from_outcome o.1 o.2) outcomes.

(** The state with its history emptied, everything else kept. *)
Definition without_history (self : t) : t :=
  mk (config self) (capability_index self) [] (success_patterns self).

(** The score [_score_match] gives a pair in a given state. *)
Definition score_in (self : t) (need : Need.t) (need_user_profile : UserProfile.t)
    (capability : Capability.t) (capability_user_profile : UserProfile.t) : Q :=
  Match.match_score
    (run (_score_match need need_user_profile capability capability_user_profile
            (TransparencyEngine.create_provenance_graph "capability_match"))
         self).

(** The boost [_apply_historical_learning] computes from a history. *)
Definition historical_boost (history : list Match.t) (need : Need.t)
    (capability : Capability.t) : Q :=
  run (_apply_historical_learning need capability)
      (mk default_config ∅ history ∅).

(** The mean [match_score] of the matches of a list of outcomes. *)
Definition mean_score (outcomes : list (Match.t * bool)) : Q :=
  (Py.sum (map (λ o : Match.t * bool, Match.match_score o.1) outcomes)
   / inject_Z (Z.of_nat (length outcomes)))%Q.

(** Indexing touches the capability index only. *)
Definition keeps_rest (m : M unit) : Prop :=
  ∀ self,
    config (exec m self) = config self
    ∧ match_history (exec m self) = match_history self
    ∧ success_patterns (exec m self) = success_patterns self.

(** The keys of a list of postings, as the deduplication loop sees them. *)
Definition keys_of (l : list posting) : gset (string * string) :=
  list_to_set (candidate_key <$> l).

(** Complementarity in the words of the specification, with the neutral
    case as the code has it: both profiles without capabilities. *)
Definition overlap_ratio (a b : UserProfile.t) : Q :=
  Py.truediv (size (capability_pairs a ∩ capability_pairs b))
             (size (capability_pairs a ∪ capability_pairs b)).

Definition clamp (x lo hi : Q) : Q := Qmax lo (Qmin hi x).

Definition complementarity_by_formula (a b : UserProfile.t) : Q :=
  match UserProfile.capabilities a, UserProfile.capabilities b with
  | [], [] => 5 # 10
  | _, _ => clamp (1 - 2 * Qabs (overlap_ratio a b - (20 # 100))) 0 1
  end.

(** The first provenance step of a match. *)
Definition first_step (m : Match.t) : option ProvenanceStep.t :=
  head (ProvenanceGraph.steps (Match.provenance m)).

(** The uncertainty factor by which [SemanticMatcher] records that the
    keyword similarity stood in for the embeddings. *)
Definition fallback_note : string :=
  "No embeddings available (keyword fallback)".

(** Strict comparison of two scores is decidable. *)
#[global] Instance Qlt_decision (x y : Q) : Decision (x < y)%Q :=
  Z_lt_dec _ _.

End Spec.

(** ** Concrete scenarios *)

Module Scenario.
Import CapabilityMatcher.

Definition cap_nav : Capability.t :=
  Capability.mk "cap-1" SKILL "navigation" "" 1 (8 # 10) [] NETWORK_PRIVACY [] ∅.

(** bob offers one capability; alice offers none and asks for it. *)
Definition bob : UserProfile.t :=
  UserProfile.mk "bob" [cap_nav] [] [] None None ∅ ∅.

Definition alice : UserProfile.t :=
  UserProfile.mk "alice" [] [] [] None None ∅ ∅.

Definition need_nav : Need.t :=
  Need.mk "need-1" SKILL "navigation" "" (5 # 10) (5 # 10) OTHER "" ∅ [].

Definition indexed_once : t := exec (index_user_profile bob) (init None).

Definition indexed_twice : t := exec (index_user_profile bob) indexed_once.

(** The match alice gets for her need, and five successful outcomes
    recorded for it. *)
Definition nav_matches : list Match.t :=
  run (find_matches need_nav alice None) indexed_once.

Definition five_nav_successes : list (Match.t * bool) :=
  flat_map (λ m, replicate 5 (m, true)) nav_matches.

(** carol and dave both offer welding; carol asks for planning. *)
Definition cap_weld (id : string) : Capability.t :=
  Capability.mk id SKILL "welding" "" (5 # 10) (8 # 10) [] NETWORK_PRIVACY [] ∅.

Definition carol : UserProfile.t :=
  UserProfile.mk "carol" [cap_weld "cap-2"] [] [] None None ∅ ∅.

Definition dave : UserProfile.t :=
  UserProfile.mk "dave" [cap_weld "cap-3"] [] [] None None ∅ ∅.

Definition need_plan : Need.t :=
  Need.mk "need-2" SKILL "planning" "" (5 # 10) (5 # 10) OTHER "" ∅ [].

Definition dave_indexed : t := exec (index_user_profile dave) (init None).

(** The match carol gets for her need before any outcome is recorded. *)
Definition first_matches : list Match.t :=
  run (find_matches need_plan carol None) dave_indexed.

(** Five successful outcomes recorded for that match. *)
Definition five_successes : list (Match.t * bool) :=
  flat_map (λ m, replicate 5 (m, true)) first_matches.

Definition after_five : t := exec (Spec.learn_all five_successes) dave_indexed.

End Scenario.

(** ** Further vocabulary *)

Module SpecMore.
Import CapabilityMatcher Spec.

(** The capability with another proficiency, everything else kept. *)
Definition with_proficiency (p : Q) (c : Capability.t) : Capability.t :=
  Capability.mk (Capability.capability_id c) (Capability.type c)
    (Capability.name c) (Capability.description c) p
    (Capability.confidence c) (Capability.evidence c)
    (Capability.privacy_level c) (Capability.tags c) (Capability.metadata c).

(** The candidates a call of [find_matches] retrieves. *)
Definition candidates_of (need : Need.t) (need_user_profile : UserProfile.t)
    (self : t) : list posting :=
  (run (_retrieve_candidates need need_user_profile
          (TransparencyEngine.create_provenance_graph "capability_match"))
       self).1.

(** The operations of the steps of a provenance graph, in order. *)
Definition operations (g : ProvenanceGraph.t) : list string :=
  map ProvenanceStep.operation (ProvenanceGraph.steps g).

(** The state with other success patterns, everything else kept. *)
Definition with_patterns (patterns : gmap string Q) (self : t) : t :=
  mk (config self) (capability_index self) (match_history self) patterns.

(** A capability answers a need by type or by a shared tag. *)
Definition answers (need : Need.t) (c : Capability.t) : Prop :=
  Need.type need = Capability.type c
  ∨ ∃ tag, tag ∈ Need.tags need ∧ tag ∈ Capability.tags c.

(** All success patterns lie in the unit interval. *)
Definition patterns_in_unit (self : t) : Prop :=
  map_Forall (λ (_ : string) (v : Q), (0 <= v <= 1)%Q) (success_patterns self).

End SpecMore.

(** ** The batch matcher ([matching/engine.py], [BatchMatcher])

    [BatchMatcher] holds a [CapabilityMatcher] and nothing else, so its
    method runs in the matcher's monad. *)

Module BatchMatcher.
Import CapabilityMatcher.

(** The inner loop of [find_optimal_matching] for one need: every
    capability of another user has its owner's profile indexed and is then
    scored; the matches are sorted and the first ten kept. *)
Definition matches_for (need_profile : UserProfile.t) (need : Need.t)
    (capabilities : list posting) : M (list Match.t) :=
  matches ←
    foldM (λ matches (pc : posting),
             if negb (String.eqb (UserProfile.user_id need_profile)
                                 (UserProfile.user_id pc.1))
             then
               index_user_profile pc.1;;
               m ← _score_match need need_profile pc.2 pc.1
                     (TransparencyEngine.create_provenance_graph "batch_match");
               mret (matches ++ [m])
             else mret matches)
          [] capabilities;
  let matches := Py.sort_desc Match.match_score matches in
  mret (Py.slice_to 10 matches).

(** [find_optimal_matching]: the result maps each [need_id] to the matches
    kept for that need; a later need with the same id overwrites. *)
Definition find_optimal_matching (needs : list (UserProfile.t * Need.t))
    (capabilities : list posting) : M (gmap string (list Match.t)) :=
  foldM (λ all_matches (pn : UserProfile.t * Need.t),
           top ← matches_for pn.1 pn.2 capabilities;
           mret (<[Need.need_id pn.2 := top]> all_matches))
        ∅ needs.

(** The capabilities of other users, as the inner loop selects them. *)
Definition of_others (need_profile : UserProfile.t) (pc : posting) : bool :=
  negb (String.eqb (UserProfile.user_id need_profile) (UserProfile.user_id pc.1)).

(** What a list of matches kept for a need looks like. *)
Definition well_ranked (l : list Match.t) : Prop :=
  length l ≤ 10
  ∧ StronglySorted Spec.score_ge l
  ∧ Forall (λ m, Match.need_user_id m ≠ Match.capability_user_id m) l.

End BatchMatcher.

(** ** Sharing ([shared/models/core.py])

    What a profile gives away for matching. *)

Module Sharing.

#[global] Instance PrivacyLevel_eq_dec : EqDecision PrivacyLevel.
Proof. solve_decision. Defined.

(** [Capability.to_shareable_dict]; [list(self.tags)] lists the tags in
    the order of the model's tag list. *)
Definition to_shareable_dict (c : Capability.t) : gmap string Py.PyVal :=
  if bool_decide (Capability.privacy_level c ∈ [PRIVATE; CONFIDENTIAL])
  then ∅
  else
    {[ "type" := Py.PyStr (CapabilityType_value (Capability.type c));
       "name" := Py.PyStr (Capability.name c);
       "description" := Py.PyStr (Capability.description c);
       "proficiency" := Py.PyFloat (Capability.proficiency c);
       "tags" := Py.PyStrList (Capability.tags c) ]}.

(** The ["capabilities"] entry of [UserProfile.to_shareable_profile]. *)
Definition to_shareable_profile_capabilities (p : UserProfile.t)
    : list (gmap string Py.PyVal) :=
  map to_shareable_dict
      (filter (λ c, Capability.privacy_level c ≠ PRIVATE)
              (UserProfile.capabilities p)).

(** The keys a shared capability may carry. *)
Definition shared_keys : gset string :=
  {[ "type"; "name"; "description"; "proficiency"; "tags" ]}.

(** The capabilities of a profile with a given privacy level. *)
Definition with_level (level : PrivacyLevel) (p : UserProfile.t)
    : list Capability.t :=
  filter (λ c, Capability.privacy_level c = level) (UserProfile.capabilities p).

End Sharing.

(** ** Further scenarios *)

Module ScenarioMore.
Import Scenario.

(** A semantic matcher without an embedding model, as built when
    sentence-transformers is not installed. *)
Definition semantic_fresh : SemanticMatcher.t unit :=
  SemanticMatcher.mk SemanticMatcher.default_config None [] [].

(** The match scored for carol's need and dave's capability. *)
Definition carol_dave_match : Match.t :=
  CapabilityMatcher.run
    (CapabilityMatcher._score_match need_plan carol (cap_weld "cap-3") dave
       (TransparencyEngine.create_provenance_graph "capability_match"))
    dave_indexed.

End ScenarioMore.

(** * Properties *)

Set Warnings "-clear-no-such-hyp".
(** ** Read-only computations *)

Section Monad.
Import CapabilityMatcher Spec.

Lemma readonly_eta {A} (m : M A) self :
  readonly m → m self = (run m self, self).
Proof. intros H. unfold run. rewrite <- (H self) at 3. unfold exec. by destruct (m self). Qed.

Lemma readonly_mret {A} (a : A) : readonly (mret a).
Proof. done. Qed.

Lemma run_mret {A} (a : A) self : run (mret a) self = a.
Proof. done. Qed.

Lemma readonly_bind {A B} (m : M A) (k : A → M B) :
  readonly m → (∀ a, readonly (k a)) → readonly (m ≫= k).
Proof.
  intros Hm Hk self. unfold mbind, M_bind.
  unfold exec. rewrite (readonly_eta m self Hm). apply Hk.
Qed.

Lemma run_bind {A B} (m : M A) (k : A → M B) self :
  readonly m → run (m ≫= k) self = run (k (run m self)) self.
Proof.
  intros Hm. unfold run at 1, mbind, M_bind.
  by rewrite (readonly_eta m self Hm).
Qed.

Lemma readonly_foldM {A B} (body : B → A → M B) l acc :
  (∀ acc x, readonly (body acc x)) → readonly (foldM body acc l).
Proof.
  intros Hbody. revert acc.
  induction l as [|x l IH]; intros acc; simpl.
  - apply readonly_mret.
  - apply readonly_bind; auto.
Qed.

Lemma run_foldM {A B} (body : B → A → M B) l acc self :
  (∀ acc x, readonly (body acc x)) →
  run (foldM body acc l) self = foldl (λ acc x, run (body acc x) self) acc l.
Proof.
  intros Hbody. revert acc.
  induction l as [|x l IH]; intros acc; simpl; [done|].
  rewrite run_bind by auto. apply IH.
Qed.

Lemma readonly_index_get key : readonly (index_get key).
Proof. done. Qed.

Lemma readonly_get_config : readonly get_config.
Proof. done. Qed.

Lemma readonly_get_history : readonly get_history.
Proof. done. Qed.

Lemma score_match_eta need nup cap cup prov self :
  _score_match need nup cap cup prov self
  = (run (_score_match need nup cap cup prov) self, self).
Proof. reflexivity. Qed.

Lemma readonly_score_match need nup cap cup prov :
  readonly (_score_match need nup cap cup prov).
Proof. intros self. reflexivity. Qed.

End Monad.

(** ** What [find_matches] computes *)

Section FindMatches.
Import CapabilityMatcher Spec.

Lemma foldl_tag_lookups self (tags : list string) (acc : list posting) :
  foldl (λ acc tag,
           run (tag_matches ← index_get ("tag:" +:+ tag);
                mret (acc ++ tag_matches)) self) acc tags
  = acc ++ flat_map (postings self) (map (λ tag, "tag:" +:+ tag) tags).
Proof.
  revert acc. induction tags as [|tag tags IH]; intros acc; simpl.
  - by rewrite app_nil_r.
  - rewrite IH. unfold run; simpl. by rewrite <- app_assoc.
Qed.

Lemma foldl_token_lookups self (tokens : list string) (acc : list posting) :
  foldl (λ acc token,
           run (if (3 <? String.length token)%nat
                then token_matches ← index_get ("token:" +:+ token);
                     mret (acc ++ token_matches)
                else mret acc) self) acc tokens
  = acc ++ flat_map (postings self)
             (map (λ token, "token:" +:+ token)
                  (filter (λ token, (3 <? String.length token)%nat) tokens)).
Proof.
  revert acc. induction tokens as [|token tokens IH]; intros acc; simpl.
  - by rewrite app_nil_r.
  - rewrite IH. rewrite filter_cons.
    destruct (3 <? String.length token)%nat eqn:Hlen.
    + rewrite decide_True by done. simpl. unfold run; simpl.
      by rewrite <- app_assoc.
    + rewrite decide_False by (by intros []). done.
Qed.

Lemma readonly_gather need : readonly (gather_candidates need).
Proof.
  unfold gather_candidates.
  apply readonly_bind; [apply readonly_index_get|]. intros type_matches.
  apply readonly_bind.
  - apply readonly_foldM. intros acc tag. by apply readonly_bind.
  - intros candidates. apply readonly_foldM. intros acc token.
    destruct (3 <? String.length token)%nat; [by apply readonly_bind | done].
Qed.

Lemma run_gather need self :
  run (gather_candidates need) self = flat_map (postings self) (need_keys need).
Proof.
  unfold gather_candidates.
  rewrite run_bind by apply readonly_index_get.
  rewrite run_bind
    by (apply readonly_foldM; intros acc tag; by apply readonly_bind).
  rewrite !run_foldM.
  - rewrite foldl_token_lookups, foldl_tag_lookups.
    unfold need_keys. simpl. rewrite flat_map_app.
    by rewrite <- app_assoc.
  - intros acc tag. by apply readonly_bind.
  - intros acc token.
    destruct (3 <? String.length token)%nat; [by apply readonly_bind | done].
Qed.

Lemma readonly_retrieve need nup prov :
  readonly (_retrieve_candidates need nup prov).
Proof.
  unfold _retrieve_candidates.
  apply readonly_bind; [apply readonly_gather | done].
Qed.

Lemma run_retrieve need nup prov self :
  (run (_retrieve_candidates need nup prov) self).1
  = filter (λ pc, not_self nup pc)
           (dedup (flat_map (postings self) (need_keys need))).
Proof.
  unfold _retrieve_candidates.
  rewrite run_bind by apply readonly_gather.
  by rewrite run_gather.
Qed.

Lemma readonly_score_candidates need nup prov cands :
  readonly (score_candidates need nup prov cands).
Proof.
  apply readonly_foldM. intros acc pc self. reflexivity.
Qed.

Lemma run_score_step need nup prov self (pc : posting) (acc : list Match.t) :
  run (m ← _score_match need nup pc.2 pc.1 prov;
       config ← get_config;
       mret (if Qle_bool (min_match_score config) (Match.match_score m)
             then acc ++ [m] else acc)) self
  = if above_threshold self (run (_score_match need nup pc.2 pc.1 prov) self)
    then acc ++ [run (_score_match need nup pc.2 pc.1 prov) self]
    else acc.
Proof. reflexivity. Qed.

Lemma foldl_score need nup prov self cands (acc : list Match.t) :
  foldl (λ scored_matches (pc : posting),
           run (m ← _score_match need nup pc.2 pc.1 prov;
                config ← get_config;
                mret (if Qle_bool (min_match_score config) (Match.match_score m)
                      then scored_matches ++ [m]
                      else scored_matches)) self) acc cands
  = acc ++ filter (λ m, above_threshold self m)
             (map (λ pc : posting,
                     run (_score_match need nup pc.2 pc.1 prov) self) cands).
Proof.
  revert acc. induction cands as [|pc cands IH]; intros acc.
  - simpl. by rewrite app_nil_r.
  - cbn [foldl map]. rewrite IH, filter_cons, run_score_step.
    destruct (above_threshold self _) eqn:Hq.
    + rewrite decide_True by done. by rewrite <- app_assoc.
    + by rewrite decide_False by (by intros []).
Qed.

Lemma run_score_candidates need nup prov cands self :
  run (score_candidates need nup prov cands) self
  = filter (λ m, above_threshold self m)
           (map (λ pc : posting,
                   run (_score_match need nup pc.2 pc.1 prov) self) cands).
Proof.
  unfold score_candidates.
  rewrite run_foldM by (intros acc pc self'; reflexivity).
  apply foldl_score.
Qed.

Lemma run_find_matches need nup k self :
  run (find_matches need nup k) self
  = Py.slice_to (Py.int_or k (max_matches_per_need (config self)))
      (Py.sort_desc Match.match_score
         (filter (λ m, above_threshold self m)
                 (scored_in_retrieval_order need nup self))).
Proof.
  unfold find_matches, find_matches_traced.
  rewrite run_bind.
  2:{ apply readonly_bind; [apply readonly_retrieve|]. intros [c p].
      apply readonly_bind; [apply readonly_score_candidates | done]. }
  rewrite run_bind by apply readonly_retrieve.
  unfold scored_in_retrieval_order.
  destruct (run (_retrieve_candidates _ _ _) self) as [cands prov] eqn:Hr.
  rewrite run_bind by apply readonly_score_candidates.
  by rewrite run_score_candidates.
Qed.

Lemma readonly_find_matches need nup k : readonly (find_matches need nup k).
Proof.
  unfold find_matches, find_matches_traced.
  apply readonly_bind; [|done].
  apply readonly_bind; [apply readonly_retrieve|]. intros [c p].
  apply readonly_bind; [apply readonly_score_candidates | done].
Qed.

End FindMatches.

(** ** The stable descending sort and the slice *)

Section Sorting.
Context {A : Type} (key : A → Q).

Let ge (a b : A) : Prop := (key b <= key a)%Q.

Lemma insert_desc_perm x l : Py.insert_desc key x l ≡ₚ x :: l.
Proof.
  induction l as [|y l IH]; simpl; [done|].
  destruct (Qle_bool (key y) (key x)); [done|].
  rewrite IH. apply Permutation_swap.
Qed.

Lemma sort_desc_perm l : Py.sort_desc key l ≡ₚ l.
Proof.
  induction l as [|x l IH]; simpl; [done|].
  unfold Py.sort_desc in *. simpl. by rewrite insert_desc_perm, IH.
Qed.

Lemma insert_desc_sorted x l :
  StronglySorted ge l → StronglySorted ge (Py.insert_desc key x l).
Proof.
  induction l as [|y l IH]; intros Hs; simpl.
  - repeat constructor.
  - apply StronglySorted_cons in Hs as [Hy Hl].
    destruct (Qle_bool (key y) (key x)) eqn:Hq.
    + apply Qle_bool_iff in Hq.
      constructor; [by constructor|].
      constructor; [done|].
      eapply Forall_impl; [exact Hy|].
      intros z Hz. unfold ge in *. by apply Qle_trans with (key y).
    + constructor; [by apply IH|].
      rewrite insert_desc_perm. constructor; [|done].
      unfold ge. destruct (Qlt_le_dec (key y) (key x)) as [Hlt|Hle].
      * apply Qlt_le_weak in Hlt. apply Qle_bool_iff in Hlt. congruence.
      * done.
Qed.

Lemma sort_desc_sorted l : StronglySorted ge (Py.sort_desc key l).
Proof.
  induction l as [|x l IH]; [constructor|].
  by apply insert_desc_sorted.
Qed.

(** Stability: among the elements of one key value the order is that of
    the input. *)
Lemma insert_desc_stable v x l :
  filter (λ a, Qeq_bool (key a) v) (Py.insert_desc key x l)
  = filter (λ a, Qeq_bool (key a) v) (x :: l).
Proof.
  induction l as [|y l IH]; simpl; [done|].
  destruct (Qle_bool (key y) (key x)) eqn:Hq; [done|].
  rewrite filter_cons, IH, !filter_cons.
  destruct (decide (Qeq_bool (key y) v)) as [Hy|Hy];
    destruct (decide (Qeq_bool (key x) v)) as [Hx|Hx]; try done.
  exfalso. apply Is_true_true, Qeq_bool_iff in Hy, Hx.
  assert (Qle_bool (key y) (key x) = true); [|congruence].
  apply Qle_bool_iff. rewrite Hx, Hy. apply Qle_refl.
Qed.

Lemma sort_desc_stable v l :
  filter (λ a, Qeq_bool (key a) v) (Py.sort_desc key l)
  = filter (λ a, Qeq_bool (key a) v) l.
Proof.
  induction l as [|x l IH]; [done|].
  change (Py.sort_desc key (x :: l))
    with (Py.insert_desc key x (Py.sort_desc key l)).
  by rewrite insert_desc_stable, !filter_cons, IH.
Qed.

Lemma slice_to_take (k : Z) (l : list A) : ∃ n, Py.slice_to k l = take n l.
Proof. unfold Py.slice_to. destruct (0 <=? k)%Z; eauto. Qed.

Lemma slice_to_subseteq (k : Z) (l : list A) : Py.slice_to k l ⊆ l.
Proof.
  destruct (slice_to_take k l) as [n ->]. apply sublist_subseteq, sublist_take.
Qed.

Lemma filter_take_prefix (P : A → Prop) `{∀ x, Decision (P x)} n (l : list A) :
  filter P (take n l) `prefix_of` filter P l.
Proof.
  exists (filter P (drop n l)). by rewrite <- filter_app, take_drop.
Qed.

Lemma StronglySorted_take (R : relation A) n l :
  StronglySorted R l → StronglySorted R (take n l).
Proof.
  intros Hs. rewrite <- (take_drop n l) in Hs.
  by apply StronglySorted_app in Hs as (_ & ? & _).
Qed.

End Sorting.

(** ** Properties of the ranked list *)

Section Ranking.
Import CapabilityMatcher Spec.

Lemma elem_of_find_matches need nup k self m :
  m ∈ run (find_matches need nup k) self →
  above_threshold self m ∧ m ∈ scored_in_retrieval_order need nup self.
Proof.
  rewrite run_find_matches. intros Hm.
  apply slice_to_subseteq in Hm.
  rewrite sort_desc_perm in Hm.
  by apply list_elem_of_filter in Hm.
Qed.

Lemma elem_of_scored need nup self m :
  m ∈ scored_in_retrieval_order need nup self →
  ∃ pc : posting,
    not_self nup pc
    ∧ Match.need_user_id m = UserProfile.user_id nup
    ∧ Match.capability_user_id m = UserProfile.user_id pc.1.
Proof.
  unfold scored_in_retrieval_order. intros Hm.
  apply list_elem_of_fmap in Hm as (pc & -> & Hpc).
  rewrite run_retrieve in Hpc. apply list_elem_of_filter in Hpc as [Hns _].
  by exists pc.
Qed.

(** C2: no match returned by [find_matches] pairs a user with
    themselves: in every state, for every need and requester, each
    returned match has [need_user_id] different from
    [capability_user_id]. *)
Theorem find_matches_no_self_match need nup k self :
  Forall (λ m, Match.need_user_id m ≠ Match.capability_user_id m)
         (run (find_matches need nup k) self).
Proof.
  apply Forall_forall. intros m Hm.
  apply elem_of_find_matches in Hm as [_ Hm].
  apply elem_of_scored in Hm as (pc & Hns & -> & ->).
  unfold not_self in Hns. intros Heq. rewrite Heq in Hns.
  by rewrite String.eqb_refl in Hns.
Qed.

(** C3: every match returned by [find_matches] scores at least
    [min_match_score], and the returned list is obtained by filtering the
    scored candidates by the threshold first, sorting what remains, and
    truncating last; so the [max_results] slots only ever hold
    candidates that passed the threshold. *)
Theorem find_matches_threshold_before_ranking need nup k self :
  Forall (λ m, (min_match_score (config self) <= Match.match_score m)%Q)
         (run (find_matches need nup k) self)
  ∧ run (find_matches need nup k) self
    = Py.slice_to (Py.int_or k (max_matches_per_need (config self)))
        (Py.sort_desc Match.match_score
           (filter (λ m, above_threshold self m)
                   (scored_in_retrieval_order need nup self))).
Proof.
  split; [|apply run_find_matches].
  apply Forall_forall. intros m Hm.
  apply elem_of_find_matches in Hm as [Hm _].
  by apply Is_true_true, Qle_bool_iff in Hm.
Qed.

Lemma filter_same_score_above self v (l : list Match.t) :
  filter (λ m, same_score v m) (filter (λ m, above_threshold self m) l)
  `prefix_of` filter (λ m, same_score v m) l.
Proof.
  destruct (Qle_bool (min_match_score (config self)) v) eqn:Hv.
  - replace (filter (λ m, same_score v m) (filter (λ m, above_threshold self m) l))
      with (filter (λ m, same_score v m) l); [done|].
    induction l as [|m l IH]; [done|].
    rewrite !filter_cons.
    destruct (decide (same_score v m)) as [Hs|Hs].
    + rewrite decide_True.
      * rewrite filter_cons, decide_True by done. by rewrite IH.
      * apply Is_true_true, Qeq_bool_iff in Hs.
        apply Is_true_true, Qle_bool_iff. rewrite Hs.
        by apply Qle_bool_iff.
    + destruct (decide (above_threshold self m)); [|done].
      by rewrite filter_cons, decide_False.
  - replace (filter (λ m, same_score v m) (filter (λ m, above_threshold self m) l))
      with (@nil Match.t); [apply prefix_nil|].
    induction l as [|m l IH]; [done|].
    rewrite filter_cons.
    destruct (decide (above_threshold self m)) as [Ha|Ha]; [|done].
    rewrite filter_cons.
    destruct (decide (same_score v m)) as [Hs|Hs]; [|done].
    exfalso. apply Is_true_true, Qeq_bool_iff in Hs.
    apply Is_true_true, Qle_bool_iff in Ha. rewrite Hs in Ha.
    apply Qle_bool_iff in Ha. congruence.
Qed.

(** C4: the list returned by [find_matches] is sorted by non-increasing
    [match_score]; for every score value, the returned matches of that
    score stand in the order in which retrieval listed their candidates;
    and calling [find_matches] a second time with the same need and
    requester, in the state the first call left, returns the same list. *)
Theorem find_matches_ranked_stable_deterministic need nup k self :
  StronglySorted score_ge (run (find_matches need nup k) self)
  ∧ (∀ v, filter (λ m, same_score v m) (run (find_matches need nup k) self)
          `prefix_of`
          filter (λ m, same_score v m) (scored_in_retrieval_order need nup self))
  ∧ run (find_matches need nup k) (exec (find_matches need nup k) self)
    = run (find_matches need nup k) self.
Proof.
  split; [|split].
  - rewrite run_find_matches.
    destruct (slice_to_take (Py.int_or k (max_matches_per_need (config self)))
                (Py.sort_desc Match.match_score
                   (filter (λ m, above_threshold self m)
                      (scored_in_retrieval_order need nup self)))) as [n ->].
    apply StronglySorted_take, sort_desc_sorted.
  - intros v. rewrite run_find_matches.
    destruct (slice_to_take (Py.int_or k (max_matches_per_need (config self)))
                (Py.sort_desc Match.match_score
                   (filter (λ m, above_threshold self m)
                      (scored_in_retrieval_order need nup self)))) as [n ->].
    etrans; [apply filter_take_prefix|].
    unfold same_score. rewrite sort_desc_stable.
    apply filter_same_score_above.
  - by rewrite readonly_find_matches.
Qed.

End Ranking.

(** ** Indexing *)

Section Indexing.
Import CapabilityMatcher Spec.

Lemma exec_bind {A B} (m : M A) (k : A → M B) self :
  exec (m ≫= k) self = exec (k (run m self)) (exec m self).
Proof. unfold exec, run, mbind, M_bind. by destruct (m self). Qed.

Lemma exec_forM_cons {A} (body : A → M unit) x l self :
  exec (forM_ body (x :: l)) self = exec (forM_ body l) (exec (body x) self).
Proof. simpl. by rewrite exec_bind. Qed.

Lemma postings_index_append k v self key :
  postings (exec (index_append k v) self) key
  = postings self key ++ (if decide (k = key) then [v] else []).
Proof.
  unfold postings, exec, index_append; simpl.
  destruct (decide (k = key)) as [->|Hne].
  - by rewrite lookup_insert_eq.
  - rewrite lookup_insert_ne by done. by rewrite app_nil_r.
Qed.

Lemma keeps_rest_index_append k v : keeps_rest (index_append k v).
Proof. done. Qed.

Lemma keeps_rest_mret : keeps_rest (mret ()).
Proof. done. Qed.

Lemma keeps_rest_seq (m1 m2 : M unit) :
  keeps_rest m1 → keeps_rest m2 → keeps_rest (m1;; m2).
Proof.
  intros H1 H2 self. rewrite exec_bind.
  destruct (H2 (exec m1 self)) as (-> & -> & ->). apply H1.
Qed.

Lemma keeps_rest_forM {A} (body : A → M unit) l :
  (∀ x, keeps_rest (body x)) → keeps_rest (forM_ body l).
Proof.
  intros Hb. induction l as [|x l IH]; [done|].
  simpl. by apply keeps_rest_seq.
Qed.

Lemma postings_forM_tags v (tags : list string) self key :
  postings (exec (forM_ (λ tag, index_append ("tag:" +:+ tag) v) tags) self) key
  = postings self key
    ++ flat_map (λ k, if decide (k = key) then [v] else [])
                (map (λ tag, "tag:" +:+ tag) tags).
Proof.
  revert self. induction tags as [|tag tags IH]; intros self.
  - simpl. by rewrite app_nil_r.
  - rewrite exec_forM_cons, IH, postings_index_append. simpl.
    by rewrite <- app_assoc.
Qed.

Lemma postings_forM_tokens v (tokens : list string) self key :
  postings (exec (forM_ (λ token,
                           if (3 <? String.length token)%nat
                           then index_append ("token:" +:+ token) v
                           else mret ()) tokens) self) key
  = postings self key
    ++ flat_map (λ k, if decide (k = key) then [v] else [])
                (map (λ token, "token:" +:+ token)
                     (filter (λ token, (3 <? String.length token)%nat) tokens)).
Proof.
  revert self. induction tokens as [|token tokens IH]; intros self.
  - simpl. by rewrite app_nil_r.
  - rewrite exec_forM_cons, IH, filter_cons.
    destruct (3 <? String.length token)%nat eqn:Hlen.
    + rewrite decide_True by done. rewrite postings_index_append. simpl.
      by rewrite <- app_assoc.
    + by rewrite decide_False by (by intros []).
Qed.

Lemma postings_index_capability profile c self key :
  postings (exec (index_capability profile c) self) key
  = postings self key
    ++ flat_map (λ k, if decide (k = key) then [(profile, c)] else [])
                (capability_keys c).
Proof.
  unfold index_capability, capability_keys.
  rewrite !exec_bind, postings_forM_tokens, postings_forM_tags,
    postings_index_append.
  cbn [flat_map]. rewrite flat_map_app. by rewrite <- !app_assoc.
Qed.

Lemma keeps_rest_index_capability profile c :
  keeps_rest (index_capability profile c).
Proof.
  unfold index_capability.
  apply keeps_rest_seq; [done|].
  apply keeps_rest_seq.
  - by apply keeps_rest_forM.
  - apply keeps_rest_forM. intros token.
    by destruct (3 <? String.length token)%nat.
Qed.

Lemma keeps_rest_index_user_profile profile :
  keeps_rest (index_user_profile profile).
Proof. apply keeps_rest_forM, keeps_rest_index_capability. Qed.

(** One pass of [index_user_profile] appends the profile's postings to
    whatever each key already holds. *)
Lemma postings_index_user_profile profile self key :
  postings (exec (index_user_profile profile) self) key
  = postings self key ++ profile_postings profile key.
Proof.
  unfold index_user_profile, profile_postings.
  generalize (UserProfile.capabilities profile) as caps.
  intros caps. revert self.
  induction caps as [|c caps IH]; intros self.
  - simpl. by rewrite app_nil_r.
  - rewrite exec_forM_cons, IH, postings_index_capability. simpl.
    by rewrite <- app_assoc.
Qed.

End Indexing.

(** ** Deduplication and re-indexing *)

Section Reindexing.
Import CapabilityMatcher Spec.

Lemma dedup_go_app seen l1 l2 :
  dedup_go seen (l1 ++ l2)
  = dedup_go seen l1 ++ dedup_go (keys_of l1 ∪ seen) l2.
Proof.
  revert seen. induction l1 as [|pc l1 IH]; intros seen; simpl.
  - unfold keys_of; simpl. by rewrite (left_id_L ∅ (∪)).
  - destruct (decide (candidate_key pc ∈ seen)) as [Hin|Hnin].
    + rewrite IH. do 2 f_equal. unfold keys_of; simpl. set_solver.
    + simpl. rewrite IH. do 3 f_equal. unfold keys_of; simpl. set_solver.
Qed.

Lemma dedup_go_seen seen l :
  keys_of l ⊆ seen → dedup_go seen l = [].
Proof.
  induction l as [|pc l IH]; intros Hsub; simpl; [done|].
  unfold keys_of in Hsub; simpl in Hsub.
  rewrite decide_True by set_solver.
  apply IH. unfold keys_of. set_solver.
Qed.

(** A block of postings met a second time is skipped whole. *)
Lemma dedup_go_repeat seen l a r :
  dedup_go seen (l ++ a ++ a ++ r) = dedup_go seen (l ++ a ++ r).
Proof.
  rewrite !dedup_go_app.
  rewrite (dedup_go_seen (keys_of a ∪ (keys_of l ∪ seen)) a) by set_solver.
  simpl. do 3 f_equal. set_solver.
Qed.

Lemma dedup_go_flat_map (f a : string → list posting) keys seen :
  dedup_go seen (flat_map (λ k, (f k ++ a k) ++ a k) keys)
  = dedup_go seen (flat_map (λ k, f k ++ a k) keys).
Proof.
  revert seen. induction keys as [|k keys IH]; intros seen; [done|].
  cbn [flat_map].
  rewrite <- !app_assoc, dedup_go_repeat.
  rewrite !(app_assoc (f k) (a k)), !(dedup_go_app seen (f k ++ a k)).
  by rewrite IH.
Qed.

Lemma gather_reindexed profile need self :
  let once := exec (index_user_profile profile) self in
  let twice := exec (index_user_profile profile) once in
  dedup (run (gather_candidates need) twice)
  = dedup (run (gather_candidates need) once).
Proof.
  intros once twice. rewrite !run_gather. unfold dedup.
  rewrite (flat_map_ext (postings twice)
             (λ k, (postings self k ++ profile_postings profile k)
                   ++ profile_postings profile k)).
  2:{ intros k. unfold twice, once. by rewrite !postings_index_user_profile. }
  rewrite (flat_map_ext (postings once)
             (λ k, postings self k ++ profile_postings profile k)).
  2:{ intros k. unfold once. by rewrite postings_index_user_profile. }
  apply dedup_go_flat_map.
Qed.

Lemma retrieve_ext need nup prov s1 s2 :
  dedup (run (gather_candidates need) s1) = dedup (run (gather_candidates need) s2) →
  run (_retrieve_candidates need nup prov) s1
  = run (_retrieve_candidates need nup prov) s2.
Proof.
  intros H. unfold _retrieve_candidates.
  rewrite !run_bind by apply readonly_gather.
  rewrite !run_mret. by rewrite H.
Qed.

Lemma score_match_ext need nup cap cup prov s1 s2 :
  config s1 = config s2 → match_history s1 = match_history s2 →
  run (_score_match need nup cap cup prov) s1
  = run (_score_match need nup cap cup prov) s2.
Proof.
  destruct s1 as [c1 i1 h1 p1], s2 as [c2 i2 h2 p2]; simpl.
  intros -> ->. reflexivity.
Qed.

Lemma find_matches_ext need nup k s1 s2 :
  config s1 = config s2 → match_history s1 = match_history s2 →
  dedup (run (gather_candidates need) s1) = dedup (run (gather_candidates need) s2) →
  run (find_matches need nup k) s1 = run (find_matches need nup k) s2.
Proof.
  intros Hc Hh Hg. rewrite !run_find_matches.
  unfold scored_in_retrieval_order, above_threshold.
  rewrite (retrieve_ext need nup _ s1 s2 Hg), Hc.
  set (r := run (_retrieve_candidates need nup _) s2).
  rewrite (map_ext (λ pc : posting, run (_score_match need nup pc.2 pc.1 r.2) s1)
                   (λ pc : posting, run (_score_match need nup pc.2 pc.1 r.2) s2));
    [done|].
  intros pc. by apply score_match_ext.
Qed.

(** C5 (as amended): indexing is append-only, so a second pass over the
    same profile appends the profile's postings once more under every
    key; what is idempotent is retrieval.  After indexing a profile
    twice, [_retrieve_candidates] and [find_matches] return exactly what
    they return after indexing it once, because retrieval deduplicates
    by [(user_id, capability_id)]. *)
Theorem reindexing_duplicates_postings_not_candidates profile self need nup k :
  let once := exec (index_user_profile profile) self in
  let twice := exec (index_user_profile profile) once in
  (∀ key, postings twice key = postings once key ++ profile_postings profile key)
  ∧ (∀ prov, run (_retrieve_candidates need nup prov) twice
             = run (_retrieve_candidates need nup prov) once)
  ∧ run (find_matches need nup k) twice = run (find_matches need nup k) once.
Proof.
  intros once twice.
  destruct (keeps_rest_index_user_profile profile once) as (Hc & Hh & _).
  split; [|split].
  - intros key. apply postings_index_user_profile.
  - intros prov. apply retrieve_ext, gather_reindexed.
  - apply find_matches_ext; [done..|]. apply gather_reindexed.
Qed.

(** C5 (as stated) fails: indexing bob twice leaves two postings under
    ["type:skill"] where indexing him once leaves one, so the two index
    states differ. *)
Lemma reindexing_not_idempotent :
  postings Scenario.indexed_once "type:skill"
    = [(Scenario.bob, Scenario.cap_nav)]
  ∧ postings Scenario.indexed_twice "type:skill"
    = [(Scenario.bob, Scenario.cap_nav); (Scenario.bob, Scenario.cap_nav)]
  ∧ Scenario.indexed_twice ≠ Scenario.indexed_once.
Proof.
  split; [by vm_compute|]. split; [by vm_compute|].
  intros H.
  apply (f_equal (λ s, length (postings s "type:skill"))) in H.
  vm_compute in H. discriminate.
Qed.

(** C10: [find_matches] leaves the matcher as it found it: the capability
    index, the match history, the success patterns and the configuration
    are the same after the call as before.  The two writers are
    [learn_from_outcome], which appends to the history, and
    [index_user_profile], which appends the profile's postings. *)
Theorem find_matches_frame need nup k self :
  (capability_index (exec (find_matches need nup k) self) = capability_index self
   ∧ match_history (exec (find_matches need nup k) self) = match_history self
   ∧ success_patterns (exec (find_matches need nup k) self) = success_patterns self
   ∧ config (exec (find_matches need nup k) self) = config self)
  ∧ (∀ m success,
       match_history (exec (learn_from_outcome m success) self)
       = match_history self ++ [m])
  ∧ (∀ profile key,
       postings (exec (index_user_profile profile) self) key
       = postings self key ++ profile_postings profile key).
Proof.
  split; [by rewrite readonly_find_matches|]. split.
  - intros m success. unfold learn_from_outcome.
    rewrite !exec_bind.
    by destruct (run (patterns_get _) _).
  - intros profile key. apply postings_index_user_profile.
Qed.

End Reindexing.

(** ** Arithmetic of the sub-scores *)


Lemma Qle_bool_false a b : Qle_bool a b = false → (b < a)%Q.
Proof.
  intros H. apply Qnot_le_lt. intros Hle.
  apply Qle_bool_iff in Hle. congruence.
Qed.

Lemma max_Qmax a b : (Py.max a b == Qmax a b)%Q.
Proof.
  unfold Py.max. destruct (Qle_bool b a) eqn:H.
  - apply Qle_bool_iff in H. by rewrite Q.max_l.
  - apply Qle_bool_false, Qlt_le_weak in H. by rewrite Q.max_r.
Qed.

Lemma min_Qmin a b : (Py.min a b == Qmin a b)%Q.
Proof.
  unfold Py.min. destruct (Qle_bool a b) eqn:H.
  - apply Qle_bool_iff in H. by rewrite Q.min_l.
  - apply Qle_bool_false, Qlt_le_weak in H. by rewrite Q.min_r.
Qed.

Lemma abs_Qabs x : (Py.abs x == Qabs x)%Q.
Proof.
  unfold Py.abs. destruct (Qle_bool 0 x) eqn:H.
  - apply Qle_bool_iff in H. by rewrite Qabs_pos.
  - apply Qle_bool_false, Qlt_le_weak in H. by rewrite Qabs_neg.
Qed.

Ltac py_cases :=
  repeat match goal with
    | |- context [Qle_bool ?a ?b] =>
        let H := fresh "Hc" in
        destruct (Qle_bool a b) eqn:H;
        [apply Qle_bool_iff in H | apply Qle_bool_false in H]
    end.

(** [max(0.0, min(1.0, x))] lies in the unit interval. *)
Lemma clamp_unit x : (0 <= Py.max 0 (Py.min 1 x) <= 1)%Q.
Proof.
  unfold Py.max, Py.min.
  destruct (Qle_bool 1 x) eqn:H1.
  - simpl. split; lra.
  - apply Qle_bool_false in H1.
    destruct (Qle_bool x 0) eqn:H2.
    + split; lra.
    + apply Qle_bool_false in H2. split; lra.
Qed.

Lemma truediv_zero n : (Py.truediv 0 n == 0)%Q.
Proof.
  unfold Py.truediv, Qdiv. change (inject_Z (Z.of_nat 0)) with 0%Q. ring.
Qed.

(** ** Complementarity *)

Section Complementarity.
Import CapabilityMatcher Spec.

Lemma capability_pairs_empty p :
  size (capability_pairs p) = 0 ↔ UserProfile.capabilities p = [].
Proof.
  unfold capability_pairs. split.
  - intros H. apply size_empty_inv in H.
    destruct (UserProfile.capabilities p) as [|c l]; [done|].
    simpl in H. set_solver.
  - intros ->. done.
Qed.

Lemma total_zero a b :
  size (capability_pairs a ∪ capability_pairs b) = 0
  ↔ UserProfile.capabilities a = [] ∧ UserProfile.capabilities b = [].
Proof.
  rewrite <- !capability_pairs_empty. split.
  - intros H. apply size_empty_inv in H.
    split; apply size_empty_iff; set_solver.
  - intros [Ha Hb]. apply size_empty_inv in Ha, Hb.
    apply size_empty_iff. set_solver.
Qed.

Lemma complementarity_nonempty a b :
  size (capability_pairs a ∪ capability_pairs b) ≠ 0 →
  (_compute_complementarity a b
   == clamp (1 - 2 * Qabs (overlap_ratio a b - (20 # 100))) 0 1)%Q.
Proof.
  intros Hne. unfold _compute_complementarity, clamp, overlap_ratio.
  apply Nat.eqb_neq in Hne. rewrite Hne.
  rewrite max_Qmax, min_Qmin, abs_Qabs.
  apply Q.max_compat; [done|]. apply Q.min_compat; [done|].
  assert ((20 # 100) == (2 # 10))%Q as -> by done. ring.
Qed.

(** C6 (as amended): complementarity is the clamped distance of the
    overlap ratio from 0.20, [clamp(1 - 2*|overlap_ratio - 0.20|, 0, 1)],
    with [overlap_ratio] the size of the intersection over the size of
    the union of the two profiles' [(type, name)] pairs.  The neutral
    0.5 is returned when both profiles have no capabilities.  When only
    one of them has none, or when both have some and share none, the
    overlap ratio is 0 and the result is 0.6.  The result always lies in
    the unit interval. *)
Theorem complementarity_formula a b :
  (_compute_complementarity a b == complementarity_by_formula a b)%Q
  ∧ (UserProfile.capabilities a = [] → UserProfile.capabilities b = [] →
     _compute_complementarity a b = 5 # 10)
  ∧ (size (capability_pairs a ∩ capability_pairs b) = 0 →
     size (capability_pairs a ∪ capability_pairs b) ≠ 0 →
     (_compute_complementarity a b == 6 # 10)%Q)
  ∧ (UserProfile.capabilities a = [] → UserProfile.capabilities b ≠ [] →
     (_compute_complementarity a b == 6 # 10)%Q)
  ∧ (0 <= _compute_complementarity a b <= 1)%Q.
Proof.
  assert (Hzero : size (capability_pairs a ∩ capability_pairs b) = 0 →
                  size (capability_pairs a ∪ capability_pairs b) ≠ 0 →
                  (_compute_complementarity a b == 6 # 10)%Q).
  { intros H0 Hne. unfold _compute_complementarity.
    apply Nat.eqb_neq in Hne. rewrite Hne, H0.
    pose proof (truediv_zero (size (capability_pairs a ∪ capability_pairs b))) as Hr.
    revert Hr. generalize (Py.truediv 0 (size (capability_pairs a ∪ capability_pairs b))).
    intros r Hr.
    unfold Py.abs; py_cases; unfold Py.min; py_cases;
      unfold Py.max; py_cases; lra. }
  split; [|split; [|split; [|split]]].
  - unfold complementarity_by_formula.
    destruct (UserProfile.capabilities a) as [|ca la] eqn:Ha,
             (UserProfile.capabilities b) as [|cb lb] eqn:Hb.
    + unfold _compute_complementarity.
      assert (size (capability_pairs a ∪ capability_pairs b) = 0) as ->
        by by apply total_zero.
      done.
    + apply complementarity_nonempty. rewrite total_zero, Hb. by intros [_ ?].
    + apply complementarity_nonempty. rewrite total_zero, Ha. by intros [? _].
    + apply complementarity_nonempty. rewrite total_zero, Ha. by intros [? _].
  - intros Ha Hb. unfold _compute_complementarity.
    assert (size (capability_pairs a ∪ capability_pairs b) = 0) as ->
      by by apply total_zero.
    done.
  - exact Hzero.
  - intros Ha Hb. apply Hzero.
    + apply capability_pairs_empty in Ha. apply size_empty_inv in Ha.
      apply size_empty_iff. set_solver.
    + rewrite total_zero. by intros [_ ?].
  - unfold _compute_complementarity.
    destruct (size _ =? 0)%nat; [split; lra|]. apply clamp_unit.
Qed.

(** The instance of the theorem at alice (no capability) and bob (one). *)
Lemma complementarity_formula_witness :
  UserProfile.capabilities Scenario.alice = []
  ∧ UserProfile.capabilities Scenario.bob ≠ []
  ∧ (_compute_complementarity Scenario.alice Scenario.bob == 6 # 10)%Q.
Proof.
  assert (Ha : UserProfile.capabilities Scenario.alice = []) by reflexivity.
  assert (Hb : UserProfile.capabilities Scenario.bob ≠ []) by (by vm_compute).
  split; [exact Ha|]. split; [exact Hb|].
  exact (proj1 (proj2 (proj2 (proj2
           (complementarity_formula Scenario.alice Scenario.bob)))) Ha Hb).
Defined.

(** C6 (as stated) fails: alice has no capability, bob has one, and
    their complementarity is 0.6, not the neutral 0.5. *)
Lemma complementarity_one_empty_profile :
  UserProfile.capabilities Scenario.alice = []
  ∧ ¬ (_compute_complementarity Scenario.alice Scenario.bob == 5 # 10)%Q.
Proof. split; [done|]. by vm_compute. Qed.

End Complementarity.

(** ** Outcome learning and the historical boost *)

Section Learning.
Import CapabilityMatcher Spec.

Lemma learn_from_outcome_history m success self :
  match_history (exec (learn_from_outcome m success) self)
  = match_history self ++ [m]
  ∧ config (exec (learn_from_outcome m success) self) = config self.
Proof.
  unfold learn_from_outcome. rewrite !exec_bind.
  by destruct (run (patterns_get _) _).
Qed.

Lemma learn_all_history outcomes self :
  match_history (exec (learn_all outcomes) self)
  = match_history self ++ map fst outcomes
  ∧ config (exec (learn_all outcomes) self) = config self.
Proof.
  unfold learn_all. revert self.
  induction outcomes as [|o outcomes IH]; intros self.
  - simpl. by rewrite app_nil_r.
  - rewrite exec_forM_cons.
    destruct (IH (exec (learn_from_outcome o.1 o.2) self)) as [-> ->].
    destruct (learn_from_outcome_history o.1 o.2 self) as [-> ->].
    simpl. by rewrite <- app_assoc.
Qed.

(** The combined score: the four weighted sub-scores plus a tenth of the
    boost drawn from the history. *)
Lemma score_in_unfold self need nup cap cup :
  score_in self need nup cap cup
  = (_compute_semantic_similarity need cap * (3 # 10)
     + _compute_complementarity nup cup * weight_complementarity (config self)
     + Capability.proficiency cap * weight_proficiency (config self)
     + _compute_feasibility nup cup need * weight_feasibility (config self)
     + historical_boost (match_history self) need cap * (1 # 10))%Q.
Proof. reflexivity. Qed.

Lemma historical_boost_nil need cap : historical_boost [] need cap = 0%Q.
Proof. reflexivity. Qed.

Lemma filter_all {A} (P : A → bool) (l : list A) :
  Forall (λ x, P x) l → filter (λ x, P x) l = l.
Proof.
  induction 1 as [|x l Hx Hl IH]; [done|].
  by rewrite filter_cons, decide_True, IH.
Qed.

Lemma historical_boost_same_type outcomes need cap :
  outcomes ≠ [] →
  Forall (λ o : Match.t * bool, same_type_pair need cap o.1) outcomes →
  historical_boost (map fst outcomes) need cap
  = ((mean_score outcomes - (5 # 10)) * (2 # 10))%Q.
Proof.
  intros Hne Hall.
  unfold historical_boost, run, _apply_historical_learning. simpl.
  rewrite filter_all by by apply Forall_fmap.
  destruct outcomes as [|o outcomes]; [done|]. simpl.
  unfold mean_score. by rewrite !map_map, !length_map.
Qed.


End Learning.

(** ** The scenarios, evaluated *)

Section Scenarios.
Import CapabilityMatcher Spec Scenario.



(** C1: the combined score is not clamped.  With the default weights,
    alice's need against bob's single capability scores
    [1.0*0.3 + 0.6*0.4 + 1.0*0.3 + 1.0*0.3 + 0.0*0.1 = 1.14], and
    [find_matches] returns that match. *)
Lemma match_score_exceeds_one :
  map (λ m, Qred (Match.match_score m)) nav_matches = [57 # 50]%Q
  ∧ Forall (λ m, (1 < Match.match_score m)%Q) nav_matches
  ∧ (_compute_semantic_similarity need_nav cap_nav == 1)%Q
  ∧ (_compute_complementarity alice bob == 6 # 10)%Q
  ∧ (_compute_feasibility alice bob need_nav == 1)%Q.
Proof.
  split; [by vm_compute|]. split.
  { apply (bool_decide_unpack _). by vm_compute. }
  split; [by vm_compute|]. split; by vm_compute.
Qed.

End Scenarios.

(** ** The confidence interval *)

Section ConfidenceInterval.
Import CapabilityMatcher Spec Scenario.

(** Feasibility, like complementarity, is cut to the unit interval before
    it enters the combined score. *)
Lemma feasibility_unit nup cup need :
  (0 <= _compute_feasibility nup cup need <= 1)%Q.
Proof. unfold _compute_feasibility. apply clamp_unit. Qed.

(** The interval is [match_score ± match_score*(1-confidence)*0.3] cut to
    the unit interval, and it brackets a score that lies in the unit
    interval when the confidence is at most one. *)
Lemma confidence_interval_brackets (m : Match.t) :
  (0 <= Match.match_score m <= 1)%Q → (Match.confidence m <= 1)%Q →
  ((TransparencyEngine._estimate_confidence_interval m).1
   <= Match.match_score m
   <= (TransparencyEngine._estimate_confidence_interval m).2)%Q.
Proof.
  intros [H0 H1] Hc. unfold TransparencyEngine._estimate_confidence_interval.
  cbn [fst snd].
  assert (Hm : (0 <= Match.match_score m * (1 - Match.confidence m) * (3 # 10))%Q).
  { apply Qmult_le_0_compat; [|done].
    apply Qmult_le_0_compat; [done|lra]. }
  revert Hm.
  generalize (Match.match_score m * (1 - Match.confidence m) * (3 # 10))%Q.
  intros margin Hm. unfold Py.max, Py.min. py_cases; split; lra.
Qed.

(** C8: the interval does not bracket a score above one.  For the match
    alice gets with bob, the score is 1.14 and the confidence 0.735; the
    margin is [1.14 * 0.265 * 0.3], and the upper end, cut to 1, lies
    below the score. *)
Lemma confidence_interval_misses_score :
  map (λ m, Qred (Match.match_score m)) nav_matches = [57 # 50]%Q
  ∧ map (λ m, Qred (Match.confidence m)) nav_matches = [147 # 200]%Q
  ∧ map (λ m, Qred (TransparencyEngine._estimate_confidence_interval m).2)
        nav_matches = [1]%Q
  ∧ Forall (λ m, ((TransparencyEngine._estimate_confidence_interval m).2
                  < Match.match_score m)%Q) nav_matches.
Proof.
  split; [by vm_compute|]. split; [by vm_compute|]. split; [by vm_compute|].
  apply (bool_decide_unpack _). by vm_compute.
Qed.

End ConfidenceInterval.

(** ** The confidence of the similarity step *)

Section SimilarityStep.
Import Spec Scenario.

Lemma lexical_uncertainties_fixed nup cup self :
  fallback_note
  ∉ CapabilityMatcher.run (CapabilityMatcher._identify_uncertainties nup cup) self.
Proof.
  unfold CapabilityMatcher.run, CapabilityMatcher._identify_uncertainties.
  unfold mbind, mret, CapabilityMatcher.M_bind, CapabilityMatcher.M_ret,
    CapabilityMatcher.get_history.
  cbn [fst].
  repeat match goal with
    | |- context [if ?b then _ else _] => destruct b
    end;
    apply (bool_decide_unpack _); by vm_compute.
Qed.



End SimilarityStep.


(** * Further properties of the capability matcher *)

Section SubScores.
Import CapabilityMatcher Spec SpecMore.

Lemma truediv_unit a b :
  a ≤ b → 0 < b → (0 <= Py.truediv a b <= 1)%Q.
Proof.
  intros Hab Hb. unfold Py.truediv.
  assert (Hb' : (0 < inject_Z (Z.of_nat b))%Q).
  { change 0%Q with (inject_Z 0). rewrite <- Zlt_Qlt. lia. }
  split.
  - apply Qle_shift_div_l; [done|]. rewrite Qmult_0_l.
    change 0%Q with (inject_Z 0). rewrite <- Zle_Qle. lia.
  - apply Qle_shift_div_r; [done|]. rewrite Qmult_1_l.
    rewrite <- Zle_Qle. lia.
Qed.

Lemma truediv_same b : 0 < b → (Py.truediv b b == 1)%Q.
Proof.
  intros Hb. unfold Py.truediv. apply Qmult_inv_r.
  change 0%Q with (inject_Z 0). rewrite inject_Z_injective. lia.
Qed.

(** X1: the lexical similarity lies in the unit interval, whatever the
    need and the capability. *)
Theorem semantic_similarity_unit need capability :
  (0 <= _compute_semantic_similarity need capability <= 1)%Q.
Proof.
  unfold _compute_semantic_similarity.
  destruct (_ || _); [split; lra|].
  destruct (0 <? _)%nat eqn:Hu; [|split; lra].
  apply Nat.ltb_lt in Hu. apply truediv_unit; [|done].
  apply subseteq_size. set_solver.
Qed.

(** X2: the similarity is 0 when the need and the capability have no token
    in common, and 1 when their token sets are equal and not empty. *)
Theorem semantic_similarity_extremes need capability :
  let nt := token_set (Need.name need) (Need.description need) (Need.tags need) in
  let ct := token_set (Capability.name capability)
                      (Capability.description capability)
                      (Capability.tags capability) in
  (nt ∩ ct = ∅ → (_compute_semantic_similarity need capability == 0)%Q)
  ∧ (nt = ct → nt ≠ ∅ → (_compute_semantic_similarity need capability == 1)%Q).
Proof.
  intros nt ct. unfold _compute_semantic_similarity. fold nt ct. split.
  - intros Hdisj. destruct (_ || _); [done|].
    destruct (0 <? _)%nat; [|done].
    rewrite Hdisj, size_empty. apply truediv_zero.
  - intros Heq Hne. rewrite <- Heq.
    assert (Hs : size nt ≠ 0) by (by intros ?%size_empty_inv%leibniz_equiv).
    apply Nat.eqb_neq in Hs. rewrite Hs. simpl.
    assert (nt ∩ nt = nt) as -> by set_solver.
    assert (nt ∪ nt = nt) as -> by set_solver.
    apply Nat.eqb_neq in Hs.
    destruct (0 <? size nt)%nat eqn:Hu.
    + apply truediv_same. by apply Nat.ltb_lt.
    + apply Nat.ltb_ge in Hu. lia.
Qed.

(** The instance at alice's need and bob's capability, whose only token is
    "navigation" on both sides. *)
Lemma semantic_similarity_extremes_witness :
  (_compute_semantic_similarity Scenario.need_nav Scenario.cap_nav == 1)%Q.
Proof.
  apply (proj2 (semantic_similarity_extremes Scenario.need_nav Scenario.cap_nav)).
  - vm_compute. reflexivity.
  - vm_compute. discriminate.
Defined.

(** X3: feasibility never falls below [0.8 * 0.9 * 0.95 * 0.9 = 0.6156],
    the product of all four penalties, and never exceeds 1. *)
Theorem feasibility_range nup cup need :
  (6156 # 10000 <= _compute_feasibility nup cup need <= 1)%Q.
Proof.
  unfold _compute_feasibility.
  destruct (_ && _ && _), (_ && _), (_ && _), (negb _); by vm_compute.
Qed.

End SubScores.


Section Retrieval.
Import CapabilityMatcher Spec SpecMore.

Lemma dedup_go_sound seen l pc : pc ∈ dedup_go seen l → pc ∈ l.
Proof.
  revert seen. induction l as [|x l IH]; intros seen; simpl; [done|].
  destruct (decide (candidate_key x ∈ seen)).
  - intros H. apply elem_of_cons. right. by eapply IH.
  - intros [->|H]%elem_of_cons; apply elem_of_cons; [by left|].
    right. by eapply IH.
Qed.

Lemma dedup_go_keys seen l :
  keys_of (dedup_go seen l) = keys_of l ∖ seen.
Proof.
  revert seen. induction l as [|x l IH]; intros seen; simpl.
  - unfold keys_of; simpl. set_solver.
  - destruct (decide (candidate_key x ∈ seen)) as [Hin|Hnin].
    + rewrite IH. unfold keys_of; simpl. set_solver.
    + unfold keys_of in *; simpl. rewrite IH.
      apply set_eq. intros k. rewrite !elem_of_union, !elem_of_difference,
        !elem_of_union, elem_of_singleton.
      destruct (decide (k = candidate_key x)) as [->|]; naive_solver.
Qed.

Lemma dedup_go_NoDup seen l : NoDup (candidate_key <$> dedup_go seen l).
Proof.
  revert seen. induction l as [|x l IH]; intros seen; simpl; [constructor|].
  destruct (decide (candidate_key x ∈ seen)) as [Hin|Hnin]; [apply IH|].
  simpl. constructor; [|apply IH].
  intros Hx.
  assert (candidate_key x ∈ keys_of (dedup_go ({[candidate_key x]} ∪ seen) l))
    as Hk by (unfold keys_of; by apply elem_of_list_to_set).
  rewrite dedup_go_keys in Hk. set_solver.
Qed.

Lemma candidates_of_eq need nup self :
  candidates_of need nup self
  = filter (λ pc, not_self nup pc)
           (dedup (flat_map (postings self) (need_keys need))).
Proof. apply run_retrieve. Qed.

(** X4: retrieval returns no duplicates: the [(user_id, capability_id)]
    keys of the candidates are pairwise different, however often a
    capability is posted in the index. *)
Theorem retrieve_candidates_no_duplicates need nup self :
  NoDup (candidate_key <$> candidates_of need nup self).
Proof.
  rewrite candidates_of_eq. unfold dedup.
  eapply sublist_NoDup; [apply (dedup_go_NoDup ∅)|].
  apply fmap_sublist, sublist_filter.
Qed.

Lemma not_self_key nup (pc : posting) :
  not_self nup pc ↔ (candidate_key pc).1 ≠ UserProfile.user_id nup.
Proof.
  unfold not_self, candidate_key. simpl.
  destruct (String.eqb _ _) eqn:E; simpl.
  - apply String.eqb_eq in E. naive_solver.
  - apply String.eqb_neq in E. naive_solver.
Qed.

Lemma elem_of_flat_map_postings self keys (pc : posting) :
  pc ∈ flat_map (postings self) keys
  ↔ ∃ key, key ∈ keys ∧ pc ∈ postings self key.
Proof.
  rewrite list_elem_of_In, in_flat_map. split.
  - intros (key & Hk & Hp). exists key. by rewrite !list_elem_of_In.
  - intros (key & Hk & Hp). exists key. by rewrite <- !list_elem_of_In.
Qed.

Lemma candidates_sound need nup self (pc : posting) :
  pc ∈ candidates_of need nup self →
  (∃ key, key ∈ need_keys need ∧ pc ∈ postings self key)
  ∧ UserProfile.user_id pc.1 ≠ UserProfile.user_id nup.
Proof.
  rewrite candidates_of_eq. intros [Hns Hpc]%list_elem_of_filter.
  apply dedup_go_sound, elem_of_flat_map_postings in Hpc. split; [done|].
  by apply not_self_key in Hns.
Qed.

Lemma candidates_complete need nup self key (pc : posting) :
  key ∈ need_keys need → pc ∈ postings self key →
  UserProfile.user_id pc.1 ≠ UserProfile.user_id nup →
  candidate_key pc ∈ candidate_key <$> candidates_of need nup self.
Proof.
  rewrite candidates_of_eq. intros Hkey Hpc Hne.
  assert (Hk : candidate_key pc
               ∈ keys_of (dedup (flat_map (postings self) (need_keys need)))).
  { unfold dedup. rewrite dedup_go_keys.
    apply elem_of_difference. split; [|set_solver].
    apply elem_of_list_to_set, list_elem_of_fmap. exists pc. split; [done|].
    apply elem_of_flat_map_postings. eauto. }
  apply elem_of_list_to_set, list_elem_of_fmap in Hk as (pc' & Heq & Hpc').
  apply list_elem_of_fmap. exists pc'. split; [done|].
  apply list_elem_of_filter. split; [|done].
  apply not_self_key. rewrite <- Heq. done.
Qed.

(** X5: what retrieval returns is what the index holds under the keys of
    the need.  Every candidate is a posting found under the need's type
    key, one of its tag keys or one of its name-token keys, and its owner
    is not the requester; conversely the key of every such posting is the
    key of one candidate. *)
Theorem retrieve_candidates_characterised need nup self :
  (∀ pc, pc ∈ candidates_of need nup self →
         (∃ key, key ∈ need_keys need ∧ pc ∈ postings self key)
         ∧ UserProfile.user_id pc.1 ≠ UserProfile.user_id nup)
  ∧ (∀ key (pc : posting),
       key ∈ need_keys need → pc ∈ postings self key →
       UserProfile.user_id pc.1 ≠ UserProfile.user_id nup →
       candidate_key pc ∈ candidate_key <$> candidates_of need nup self).
Proof.
  split.
  - intros pc. apply candidates_sound.
  - intros key pc. apply candidates_complete.
Qed.

Lemma profile_postings_type profile c :
  c ∈ UserProfile.capabilities profile →
  (profile, c) ∈ profile_postings profile
                   ("type:" +:+ CapabilityType_value (Capability.type c)).
Proof.
  intros Hc. unfold profile_postings.
  apply list_elem_of_In, in_flat_map. exists c. split; [by apply list_elem_of_In|].
  unfold capability_keys. simpl. rewrite decide_True by done. by left.
Qed.

Lemma profile_postings_tag profile c tag :
  c ∈ UserProfile.capabilities profile → tag ∈ Capability.tags c →
  (profile, c) ∈ profile_postings profile ("tag:" +:+ tag).
Proof.
  intros Hc Ht. unfold profile_postings.
  apply list_elem_of_In, in_flat_map. exists c. split; [by apply list_elem_of_In|].
  apply in_flat_map. exists ("tag:" +:+ tag). split.
  - unfold capability_keys. right. apply in_or_app. left.
    apply in_map. by apply list_elem_of_In.
  - rewrite decide_True by done. by left.
Qed.



End Retrieval.


Section Calls.
Import CapabilityMatcher Spec SpecMore.

Lemma run_find_matches_traced need nup k self :
  run (find_matches_traced need nup k) self
  = (run (find_matches need nup k) self,
     _add_ranking_reasoning (run (find_matches need nup k) self)
       (run (_retrieve_candidates need nup
               (TransparencyEngine.create_provenance_graph "capability_match"))
            self).2).
Proof.
  unfold find_matches.
  rewrite (run_bind (find_matches_traced need nup k)).
  2:{ unfold find_matches_traced.
      apply readonly_bind; [apply readonly_retrieve|]. intros [c p].
      apply readonly_bind; [apply readonly_score_candidates | done]. }
  rewrite run_mret.
  unfold find_matches_traced.
  rewrite run_bind by apply readonly_retrieve.
  destruct (run (_retrieve_candidates _ _ _) self) as [cands prov].
  rewrite run_bind by apply readonly_score_candidates.
  reflexivity.
Qed.

(** X7: the provenance graph of a call of [find_matches] always starts
    with the retrieval step, and it has a ranking step after it exactly
    when the call returns at least one match. *)
Theorem find_matches_trace_steps need nup k self :
  operations (run (find_matches_traced need nup k) self).2
  = "candidate_retrieval"
    :: (if Py.list_truthy (run (find_matches need nup k) self)
        then ["ranking"] else []).
Proof.
  rewrite run_find_matches_traced. cbn [snd].
  unfold _retrieve_candidates.
  rewrite run_bind by apply readonly_gather. rewrite run_mret. cbn [snd].
  destruct (run (find_matches need nup k) self) as [|m l]; reflexivity.
Qed.

(** X8: on an empty index [find_matches] returns the empty list, for
    every need, requester and [max_results]. *)
Theorem find_matches_empty_index need nup k self :
  capability_index self = ∅ →
  run (find_matches need nup k) self = []
  ∧ candidates_of need nup self = [].
Proof.
  intros Hidx.
  assert (Hc : candidates_of need nup self = []).
  { rewrite candidates_of_eq.
    assert (flat_map (postings self) (need_keys need) = []) as ->; [|done].
    induction (need_keys need) as [|key keys IH]; [done|].
    simpl. rewrite IH. unfold postings. by rewrite Hidx, lookup_empty. }
  split; [|done].
  rewrite run_find_matches. unfold scored_in_retrieval_order.
  fold (candidates_of need nup self). rewrite Hc. simpl.
  unfold Py.slice_to. destruct (0 <=? _)%Z; apply take_nil.
Qed.

(** The instance at a fresh matcher. *)
Lemma find_matches_empty_index_witness :
  run (find_matches Scenario.need_nav Scenario.alice None) (init None) = []
  ∧ candidates_of Scenario.need_nav Scenario.alice (init None) = [].
Proof.
  apply (find_matches_empty_index Scenario.need_nav Scenario.alice None
           (init None)).
  reflexivity.
Defined.

Lemma length_sort_desc {A} (key : A → Q) l :
  length (Py.sort_desc key l) = length l.
Proof. by rewrite sort_desc_perm. Qed.

(** X9: a positive [max_results] bounds the length of the result. *)
Theorem find_matches_at_most_max_results need nup (n : Z) self :
  (0 < n)%Z →
  (Z.of_nat (length (run (find_matches need nup (Some n)) self)) <= n)%Z.
Proof.
  intros Hn. rewrite run_find_matches. unfold Py.int_or, Py.slice_to.
  destruct (n =? 0)%Z eqn:E; [lia|].
  destruct (0 <=? n)%Z eqn:E'; [|lia].
  rewrite length_take. lia.
Qed.

(** The instance at alice's need with room for one match. *)
Lemma find_matches_at_most_max_results_witness :
  (Z.of_nat (length (run (find_matches Scenario.need_nav Scenario.alice (Some 1))
                         Scenario.indexed_once)) <= 1)%Z.
Proof.
  apply (find_matches_at_most_max_results Scenario.need_nav Scenario.alice 1
           Scenario.indexed_once).
  lia.
Defined.

(** X10: [max_results=0] does not ask for an empty list: it is taken like
    [None] and the configured maximum applies.  A negative [max_results]
    drops that many matches from the end of the full ranking. *)
Theorem find_matches_zero_and_negative_max_results need nup self :
  run (find_matches need nup (Some 0%Z)) self
  = run (find_matches need nup None) self
  ∧ (∀ n : Z, (n < 0)%Z →
       length (run (find_matches need nup (Some n)) self)
       = length (filter (λ m, above_threshold self m)
                        (scored_in_retrieval_order need nup self))
         - Z.to_nat (- n)).
Proof.
  split; [by rewrite !run_find_matches|].
  intros n Hn. rewrite run_find_matches. unfold Py.int_or, Py.slice_to.
  destruct (n =? 0)%Z eqn:E; [lia|].
  destruct (0 <=? n)%Z eqn:E'; [lia|].
  rewrite length_take, !length_sort_desc. lia.
Qed.

Lemma learn_from_outcome_index m success self :
  capability_index (exec (learn_from_outcome m success) self)
  = capability_index self.
Proof.
  unfold learn_from_outcome, exec, mbind, M_bind, history_append,
    patterns_get, patterns_set.
  simpl. by destruct (_ !! _).
Qed.

(** X11: scoring never reads the success patterns.  Two states that differ
    only in [success_patterns] give the same [find_matches] result; so
    recording an outcome as a success or as a failure makes no difference
    to later results. *)
Theorem find_matches_ignores_success_patterns need nup k self :
  (∀ patterns,
     run (find_matches need nup k) (with_patterns patterns self)
     = run (find_matches need nup k) self)
  ∧ (∀ m,
       run (find_matches need nup k) (exec (learn_from_outcome m true) self)
       = run (find_matches need nup k) (exec (learn_from_outcome m false) self)).
Proof.
  split.
  - intros patterns. apply find_matches_ext; [done..|].
    by rewrite !run_gather.
  - intros m. apply find_matches_ext.
    + destruct (learn_from_outcome_history m true self) as [_ ->].
      by destruct (learn_from_outcome_history m false self) as [_ ->].
    + destruct (learn_from_outcome_history m true self) as [-> _].
      by destruct (learn_from_outcome_history m false self) as [-> _].
    + rewrite !run_gather. f_equal.
      apply flat_map_ext. intros key. unfold postings.
      by rewrite !learn_from_outcome_index.
Qed.

End Calls.


Section ScoreAndHistory.
Import CapabilityMatcher Spec SpecMore.

Lemma historical_boost_unrelated history need cap :
  Forall (λ m, ¬ same_type_pair need cap m) history →
  historical_boost history need cap = 0%Q.
Proof.
  intros Hall. unfold historical_boost, run, _apply_historical_learning. simpl.
  destruct history as [|m history]; [done|]. simpl.
  assert (filter (λ m, same_type_pair need cap m) (m :: history) = []) as ->;
    [|done].
  induction Hall as [|x l Hx Hl IH]; [done|].
  by rewrite filter_cons, decide_False.
Qed.

(** X12: past matches of other type pairs do not move the score.  When no
    match in the history has the [(need.type, capability.type)] pair being
    scored, the score is the one an empty history gives. *)
Theorem unrelated_history_keeps_score self need nup cap cup :
  Forall (λ m, ¬ same_type_pair need cap m) (match_history self) →
  score_in self need nup cap cup
  = score_in (without_history self) need nup cap cup.
Proof.
  intros Hall. rewrite !score_in_unfold. simpl.
  by rewrite historical_boost_unrelated, historical_boost_nil.
Qed.

(** The instance at a history of one (skill, skill) match and a need for
    funding. *)
Lemma unrelated_history_keeps_score_witness :
  let self := exec (learn_all Scenario.five_nav_successes) Scenario.indexed_once in
  let need := Need.mk "need-3" FUNDING "grant" "" (5 # 10) (5 # 10) OTHER "" ∅ [] in
  match_history self ≠ []
  ∧ score_in self need Scenario.alice Scenario.cap_nav Scenario.bob
    = score_in (without_history self) need Scenario.alice Scenario.cap_nav
               Scenario.bob.
Proof.
  intros self need. split; [by vm_compute|].
  apply (unrelated_history_keeps_score self need Scenario.alice
           Scenario.cap_nav Scenario.bob).
  apply (bool_decide_unpack _). by vm_compute.
Defined.

(** X13: the score grows with the proficiency.  With a non-negative
    proficiency weight, raising the proficiency of a capability and
    changing nothing else never lowers its score against a need. *)
Theorem score_monotone_in_proficiency self need nup cap cup (p1 p2 : Q) :
  (0 <= weight_proficiency (config self))%Q →
  (p1 <= p2)%Q →
  (score_in self need nup (with_proficiency p1 cap) cup
   <= score_in self need nup (with_proficiency p2 cap) cup)%Q.
Proof.
  intros Hw Hp. rewrite !score_in_unfold.
  change (_compute_semantic_similarity need (with_proficiency p2 cap))
    with (_compute_semantic_similarity need (with_proficiency p1 cap)).
  change (historical_boost (match_history self) need (with_proficiency p2 cap))
    with (historical_boost (match_history self) need (with_proficiency p1 cap)).
  cbn [Capability.proficiency with_proficiency].
  assert (p1 * weight_proficiency (config self)
          <= p2 * weight_proficiency (config self))%Q
    by by apply Qmult_le_compat_r.
  lra.
Qed.

(** The scenario of the specification: proficiency 0.5 against 0.95. *)
Lemma score_monotone_in_proficiency_witness :
  (score_in Scenario.indexed_once Scenario.need_nav Scenario.alice
            (with_proficiency (5 # 10) Scenario.cap_nav) Scenario.bob
   <= score_in Scenario.indexed_once Scenario.need_nav Scenario.alice
               (with_proficiency (95 # 100) Scenario.cap_nav) Scenario.bob)%Q.
Proof.
  apply (score_monotone_in_proficiency Scenario.indexed_once Scenario.need_nav
           Scenario.alice Scenario.cap_nav Scenario.bob (5 # 10) (95 # 100)).
  - by vm_compute.
  - by vm_compute.
Defined.

Lemma score_match_confidence self need nup cap cup prov :
  Match.confidence (run (_score_match need nup cap cup prov) self)
  = (Py.sum [ Match.match_score (run (_score_match need nup cap cup prov) self);
              5 # 10; 8 # 10;
              if Py.list_truthy (match_history self) then 8 # 10 else 5 # 10 ]
     / inject_Z (Z.of_nat 4))%Q.
Proof. reflexivity. Qed.

Lemma compute_confidence_no_evidence self (m : Match.t) :
  run (_compute_confidence (Match.set_evidence [] m)) self
  = (Py.sum [ Match.match_score m; 5 # 10; 8 # 10;
              if Py.list_truthy (match_history self) then 8 # 10 else 5 # 10 ]
     / inject_Z (Z.of_nat 4))%Q.
Proof. reflexivity. Qed.

(** X14: the confidence of a scored match does not depend on its
    evidence.  [_score_match] computes the confidence before it attaches
    the evidence, so the confidence it stores is the one
    [_compute_confidence] gives the same match without evidence, and two
    matches scored in the same state with the same score have the same
    confidence, whatever evidence each carries. *)
Theorem confidence_ignores_evidence self need nup cap cup prov :
  let m := run (_score_match need nup cap cup prov) self in
  Match.confidence m
  = run (_compute_confidence (Match.set_evidence [] m)) self
  ∧ (∀ need' nup' cap' cup' prov',
       let m' := run (_score_match need' nup' cap' cup' prov') self in
       Match.match_score m' = Match.match_score m →
       Match.confidence m' = Match.confidence m).
Proof.
  intros m. subst m. split.
  - by rewrite score_match_confidence, compute_confidence_no_evidence.
  - intros need' nup' cap' cup' prov' m' Hscore. subst m'.
    by rewrite !score_match_confidence, Hscore.
Qed.

Lemma patterns_after_learn m success self key :
  success_patterns (exec (learn_from_outcome m success) self) !! key
  = if decide (key = CapabilityType_value (Need.type (Match.need m)) +:+ ":"
                     +:+ CapabilityType_value (Capability.type (Match.capability m)))
    then Some (let new_value := if success then Match.match_score m else 0%Q in
               match success_patterns self !! key with
               | None => new_value
               | Some current => ((3 # 10) * new_value + (1 - (3 # 10)) * current)%Q
               end)
    else success_patterns self !! key.
Proof.
  unfold learn_from_outcome, exec, run, mbind, M_bind, history_append,
    patterns_get, patterns_set. simpl.
  destruct (decide _) as [->|Hne].
  - destruct (success_patterns self !! _) eqn:E; simpl;
      by rewrite lookup_insert_eq.
  - destruct (success_patterns self !! (_ +:+ _)) eqn:E; simpl;
      by rewrite lookup_insert_ne.
Qed.

Lemma patterns_in_unit_learn m success self :
  (0 <= Match.match_score m <= 1)%Q →
  patterns_in_unit self →
  patterns_in_unit (exec (learn_from_outcome m success) self).
Proof.
  intros [H0 H1] Hinv key v.
  rewrite patterns_after_learn.
  destruct (decide _) as [->|Hne]; [|apply Hinv].
  intros [= <-].
  destruct (success_patterns self !! _) as [current|] eqn:E.
  - apply Hinv in E. simpl in E. destruct success; cbn zeta; split; lra.
  - destruct success; cbn zeta; split; lra.
Qed.

(** X15: the success patterns stay in the unit interval.  Starting from a
    state whose patterns all lie in [0,1] (a fresh matcher has none),
    recording any list of outcomes whose matches have scores in [0,1]
    leaves every pattern in [0,1]: the moving average never leaves the
    range of what it averages. *)
Theorem success_patterns_stay_in_unit outcomes self :
  patterns_in_unit self →
  Forall (λ o : Match.t * bool, (0 <= Match.match_score o.1 <= 1)%Q) outcomes →
  patterns_in_unit (exec (learn_all outcomes) self).
Proof.
  intros Hinv Hall. revert self Hinv. unfold learn_all.
  induction Hall as [|o outcomes Ho Hall IH]; intros self Hinv; [done|].
  rewrite exec_forM_cons. apply IH. by apply patterns_in_unit_learn.
Qed.

(** The instance at carol's five recorded successes. *)
Lemma success_patterns_stay_in_unit_witness :
  patterns_in_unit (exec (learn_all Scenario.five_successes) Scenario.dave_indexed).
Proof.
  apply (success_patterns_stay_in_unit Scenario.five_successes
           Scenario.dave_indexed).
  - intros key v. vm_compute. discriminate.
  - vm_compute. repeat constructor; discriminate.
Defined.

End ScoreAndHistory.


(** * The batch matcher *)

Section Batch.
Import CapabilityMatcher Spec SpecMore BatchMatcher.

Lemma foldM_cons_eq {A B} (body : B → A → M B) acc x l self :
  foldM body acc (x :: l) self
  = foldM body (run (body acc x) self) l (exec (body acc x) self).
Proof.
  simpl. unfold mbind, M_bind, run, exec. by destruct (body acc x self).
Qed.

Lemma run_foldM_cons {A B} (body : B → A → M B) acc x l self :
  run (foldM body acc (x :: l)) self
  = run (foldM body (run (body acc x) self) l) (exec (body acc x) self).
Proof. unfold run at 1. by rewrite foldM_cons_eq. Qed.

Lemma foldM_invariant {A B} (P : B → Prop) (body : B → A → M B) l acc self :
  (∀ acc x self, P acc → P (run (body acc x) self)) →
  P acc → P (run (foldM body acc l) self).
Proof.
  intros Hbody. revert acc self.
  induction l as [|x l IH]; intros acc self Hacc; [done|].
  unfold run. rewrite foldM_cons_eq. apply IH. by apply Hbody.
Qed.

(** One round of the inner loop. *)
Lemma matches_for_step np need (pc : posting) acc self :
  (if negb (String.eqb (UserProfile.user_id np) (UserProfile.user_id pc.1))
   then
     index_user_profile pc.1;;
     m ← _score_match need np pc.2 pc.1
           (TransparencyEngine.create_provenance_graph "batch_match");
     mret (acc ++ [m])
   else mret acc) self
  = if of_others np pc
    then (acc ++ [run (_score_match need np pc.2 pc.1
                         (TransparencyEngine.create_provenance_graph "batch_match"))
                      (exec (index_user_profile pc.1) self)],
          exec (index_user_profile pc.1) self)
    else (acc, self).
Proof.
  unfold of_others. destruct (negb _); [|done].
  unfold mbind at 1, M_bind at 1, exec.
  by destruct (index_user_profile pc.1 self) as [[] s'].
Qed.

(** The inner loop, from any accumulator, in any state [self] that scores
    like [s0]. *)
Lemma matches_for_loop np need caps acc self s0 :
  config s0 = config self → match_history s0 = match_history self →
  let loop :=
    foldM (λ matches (pc : posting),
             if negb (String.eqb (UserProfile.user_id np) (UserProfile.user_id pc.1))
             then
               index_user_profile pc.1;;
               m ← _score_match need np pc.2 pc.1
                     (TransparencyEngine.create_provenance_graph "batch_match");
               mret (matches ++ [m])
             else mret matches) acc caps in
  run loop self
  = acc ++ map (λ pc : posting,
                  run (_score_match need np pc.2 pc.1
                         (TransparencyEngine.create_provenance_graph "batch_match"))
                      s0)
               (filter (λ pc, of_others np pc) caps)
  ∧ config (exec loop self) = config self
  ∧ match_history (exec loop self) = match_history self
  ∧ success_patterns (exec loop self) = success_patterns self
  ∧ ∀ key, postings (exec loop self) key
           = postings self key
             ++ flat_map (λ pc : posting, profile_postings pc.1 key)
                         (filter (λ pc, of_others np pc) caps).
Proof.
  intros Hc Hh loop. subst loop. revert acc self Hc Hh.
  induction caps as [|pc caps IH]; intros acc self Hc Hh.
  - simpl. unfold run, exec. simpl. rewrite app_nil_r. repeat split.
    intros key. by rewrite app_nil_r.
  - unfold run, exec. rewrite foldM_cons_eq.
    unfold run, exec. cbv beta.
    rewrite matches_for_step, filter_cons.
    destruct (of_others np pc) eqn:Hother.
    + rewrite decide_True by done. cbn [fst snd].
      destruct (keeps_rest_index_user_profile pc.1 self) as (Hc' & Hh' & Hp').
      destruct (IH (acc ++ [run (_score_match need np pc.2 pc.1
                                   (TransparencyEngine.create_provenance_graph
                                      "batch_match"))
                                (exec (index_user_profile pc.1) self)])
                   (exec (index_user_profile pc.1) self))
        as (Hr & Hc2 & Hh2 & Hp2 & Hk); [congruence..|].
      unfold run, exec in Hr, Hc2, Hh2, Hp2, Hk, Hc', Hh', Hp' |- *.
      rewrite Hr, Hc2, Hh2, Hp2. repeat split; try congruence.
      * pose proof (score_match_ext need np pc.2 pc.1
                      (TransparencyEngine.create_provenance_graph "batch_match")
                      (index_user_profile pc.1 self).2 s0) as Hs.
        unfold run in Hs. rewrite Hs by congruence.
        by rewrite <- app_assoc.
      * intros key. rewrite Hk.
        pose proof (postings_index_user_profile pc.1 self key) as Hpost.
        unfold exec in Hpost. rewrite Hpost. simpl.
        by rewrite <- app_assoc.
    + rewrite decide_False by (by intros []). cbn [fst snd].
      destruct (IH acc self) as (Hr & Hc2 & Hh2 & Hp2 & Hk); [done..|].
      unfold run, exec in Hr, Hc2, Hh2, Hp2, Hk.
      by rewrite Hr, Hc2, Hh2, Hp2.
Qed.

Lemma matches_for_eq np need caps self :
  matches_for np need caps self
  = (take 10 (Py.sort_desc Match.match_score
                (run (foldM (λ matches (pc : posting),
                        if negb (String.eqb (UserProfile.user_id np)
                                            (UserProfile.user_id pc.1))
                        then
                          index_user_profile pc.1;;
                          m ← _score_match need np pc.2 pc.1
                                (TransparencyEngine.create_provenance_graph
                                   "batch_match");
                          mret (matches ++ [m])
                        else mret matches) [] caps) self)),
     exec (foldM (λ matches (pc : posting),
                    if negb (String.eqb (UserProfile.user_id np)
                                        (UserProfile.user_id pc.1))
                    then
                      index_user_profile pc.1;;
                      m ← _score_match need np pc.2 pc.1
                            (TransparencyEngine.create_provenance_graph
                               "batch_match");
                      mret (matches ++ [m])
                    else mret matches) [] caps) self).
Proof.
  unfold matches_for, run, exec, mbind at 1, M_bind at 1.
  by destruct (foldM _ [] caps self).
Qed.

Lemma matches_for_spec np need caps self :
  run (matches_for np need caps) self
  = take 10 (Py.sort_desc Match.match_score
               (map (λ pc : posting,
                       run (_score_match need np pc.2 pc.1
                              (TransparencyEngine.create_provenance_graph
                                 "batch_match")) self)
                    (filter (λ pc, of_others np pc) caps)))
  ∧ config (exec (matches_for np need caps) self) = config self
  ∧ match_history (exec (matches_for np need caps) self) = match_history self
  ∧ success_patterns (exec (matches_for np need caps) self)
    = success_patterns self
  ∧ ∀ key, postings (exec (matches_for np need caps) self) key
           = postings self key
             ++ flat_map (λ pc : posting, profile_postings pc.1 key)
                         (filter (λ pc, of_others np pc) caps).
Proof.
  destruct (matches_for_loop np need caps [] self self eq_refl eq_refl)
    as (Hr & Hc & Hh & Hp & Hk).
  unfold run at 1, exec at 1 2 3 4. rewrite matches_for_eq. cbn [fst snd].
  rewrite Hr, app_nil_l. done.
Qed.

Lemma matches_for_well_ranked np need caps self :
  well_ranked (run (matches_for np need caps) self).
Proof.
  destruct (matches_for_spec np need caps self) as (-> & _).
  split; [|split].
  - rewrite length_take. lia.
  - apply StronglySorted_take, sort_desc_sorted.
  - apply Forall_forall. intros m Hm.
    apply (sublist_subseteq _ _ (sublist_take _ _)) in Hm.
    rewrite sort_desc_perm in Hm.
    apply list_elem_of_fmap in Hm as (pc & -> & Hpc).
    apply list_elem_of_filter in Hpc as [Ho _].
    unfold of_others in Ho. intros Heq.
    change (UserProfile.user_id np = UserProfile.user_id pc.1) in Heq.
    rewrite Heq, String.eqb_refl in Ho. done.
Qed.

(** X16: what [BatchMatcher] keeps for a need.  The list has at most ten
    matches, is sorted by non-increasing score and pairs no user with
    themselves.  No score threshold applies: the list has ten matches or
    one for every capability of another user, whichever is less. *)
Theorem batch_matches_ranked_without_threshold np need caps self :
  well_ranked (run (matches_for np need caps) self)
  ∧ length (run (matches_for np need caps) self)
    = Nat.min 10 (length (filter (λ pc, of_others np pc) caps)).
Proof.
  split; [apply matches_for_well_ranked|].
  destruct (matches_for_spec np need caps self) as (-> & _).
  - by rewrite length_take, length_sort_desc, length_map.
Qed.

(** X17: batch matching writes to the index.  Scoring a need against a
    list of capabilities indexes the owner's whole profile once for every
    capability of another user in the list, so each such profile's
    postings are appended again under every key; configuration, history
    and success patterns are left alone. *)
Theorem batch_matching_reindexes_owners np need caps self :
  (∀ key, postings (exec (matches_for np need caps) self) key
          = postings self key
            ++ flat_map (λ pc : posting, profile_postings pc.1 key)
                        (filter (λ pc, of_others np pc) caps))
  ∧ config (exec (matches_for np need caps) self) = config self
  ∧ match_history (exec (matches_for np need caps) self) = match_history self
  ∧ success_patterns (exec (matches_for np need caps) self)
    = success_patterns self.
Proof.
  destruct (matches_for_spec np need caps self) as (_ & Hc & Hh & Hp & Hk).
  done.
Qed.

(** X18: every entry of the result of [find_optimal_matching] is such a
    list, and the result has an entry for exactly the [need_id]s of the
    needs given. *)
Theorem find_optimal_matching_entries needs caps self :
  map_Forall (λ (_ : string) l, well_ranked l)
             (run (find_optimal_matching needs caps) self)
  ∧ dom (run (find_optimal_matching needs caps) self)
    = list_to_set (map (λ pn : UserProfile.t * Need.t, Need.need_id pn.2) needs).
Proof.
  unfold find_optimal_matching. split.
  - apply (foldM_invariant (map_Forall (λ (_ : string) l, well_ranked l))).
    + intros acc pn s Hacc. unfold run, mbind, M_bind.
      destruct (matches_for pn.1 pn.2 caps s) as [top s'] eqn:E. simpl.
      apply map_Forall_insert_2; [|done].
      replace top with (run (matches_for pn.1 pn.2 caps) s)
        by (unfold run; by rewrite E).
      apply matches_for_well_ranked.
    + apply map_Forall_empty.
  - assert (H : ∀ (acc : gmap string (list Match.t)) s,
        dom (run (foldM (λ all_matches (pn : UserProfile.t * Need.t),
                           top ← matches_for pn.1 pn.2 caps;
                           mret (<[Need.need_id pn.2 := top]> all_matches))
                        acc needs) s)
        = (dom acc ∪ list_to_set
                       (map (λ pn : UserProfile.t * Need.t, Need.need_id pn.2)
                            needs) : gset string)).
    { induction needs as [|pn needs IH]; intros acc s.
      - simpl. unfold run. simpl. set_solver.
      - rewrite run_foldM_cons, IH. unfold run, mbind, M_bind.
        destruct (matches_for pn.1 pn.2 caps s) as [top s']. simpl.
        rewrite dom_insert_L. set_solver. }
    rewrite H, dom_empty_L. set_solver.
Qed.

End Batch.

(** * The confidence interval of a scored match *)

Section ScoredInterval.
Import CapabilityMatcher Spec SpecMore.

(** X19: scoring and explaining compose.  For a match that [_score_match]
    builds, in any state, with a score in the unit interval, the interval
    [_estimate_confidence_interval] reports lies in the unit interval and
    brackets the score: the confidence [_score_match] stores is at most
    one, so the margin is not negative. *)
Theorem scored_match_interval_brackets self need nup cap cup prov :
  let m := run (_score_match need nup cap cup prov) self in
  (0 <= Match.match_score m <= 1)%Q →
  (0 <= (TransparencyEngine._estimate_confidence_interval m).1
     <= Match.match_score m)%Q
  ∧ (Match.match_score m
     <= (TransparencyEngine._estimate_confidence_interval m).2 <= 1)%Q.
Proof.
  intros m Hs.
  assert (Hc : (Match.confidence m <= 1)%Q).
  { subst m. rewrite score_match_confidence.
    revert Hs.
    generalize (Match.match_score (run (_score_match need nup cap cup prov) self)).
    intros s [H0 H1]. unfold Py.sum. cbn [fold_left].
    change (inject_Z (Z.of_nat 4)) with 4%Q.
    destruct (Py.list_truthy (match_history self));
      apply Qle_shift_div_r; lra. }
  destruct (confidence_interval_brackets m Hs Hc) as [Hlo Hhi].
  repeat split; try done.
  - unfold TransparencyEngine._estimate_confidence_interval. cbn [fst].
    unfold Py.max. py_cases; lra.
  - unfold TransparencyEngine._estimate_confidence_interval. cbn [snd].
    unfold Py.min. py_cases; lra.
Qed.

(** The instance at the match of carol's need with dave's capability,
    whose score is 0.45. *)
Lemma scored_match_interval_brackets_witness :
  (0 <= Match.match_score ScenarioMore.carol_dave_match <= 1)%Q
  ∧ (0 <= (TransparencyEngine._estimate_confidence_interval
             ScenarioMore.carol_dave_match).1
       <= Match.match_score ScenarioMore.carol_dave_match)%Q
  ∧ (Match.match_score ScenarioMore.carol_dave_match
     <= (TransparencyEngine._estimate_confidence_interval
           ScenarioMore.carol_dave_match).2 <= 1)%Q.
Proof.
  assert (H : (0 <= Match.match_score ScenarioMore.carol_dave_match <= 1)%Q)
    by (split; by vm_compute).
  split; [exact H|].
  exact (scored_match_interval_brackets Scenario.dave_indexed Scenario.need_plan
           Scenario.carol (Scenario.cap_weld "cap-3") Scenario.dave
           (TransparencyEngine.create_provenance_graph "capability_match") H).
Defined.

End ScoredInterval.

(** * The semantic matcher on the keyword fallback *)

Section SemanticFallback.
Import Spec.

Lemma keyword_similarity_unit need capability :
  (0 <= SemanticMatcher._keyword_similarity need capability <= 1)%Q.
Proof.
  unfold SemanticMatcher._keyword_similarity.
  destruct (_ || _); [split; lra|].
  destruct (0 <? _)%nat eqn:Hu; [|split; lra].
  apply Nat.ltb_lt in Hu. apply truediv_unit; [|done].
  apply subseteq_size. set_solver.
Qed.

Lemma semantic_complementarity_unit p1 p2 :
  (0 <= SemanticMatcher._compute_complementarity p1 p2 <= 1)%Q.
Proof.
  unfold SemanticMatcher._compute_complementarity.
  destruct (_ =? 0)%nat; [split; lra|]. apply clamp_unit.
Qed.

Lemma semantic_feasibility_unit p1 p2 need :
  (0 <= SemanticMatcher._compute_feasibility p1 p2 need <= 1)%Q.
Proof.
  unfold SemanticMatcher._compute_feasibility.
  repeat match goal with
    | |- context [if ?b then _ else _] => destruct b
    end;
    split; by vm_compute.
Qed.

(** X20: with the default weights of [SemanticMatchingConfig], which sum
    to one, the keyword fallback of [SemanticMatcher._score_match] always
    returns a match, and for a capability whose proficiency lies in the
    unit interval both the score and the confidence of that match lie in
    the unit interval. *)
Theorem semantic_fallback_score_in_unit (ndarray : Type)
    (ndarray_bool : ndarray → option bool) (cosine : ndarray → ndarray → Q)
    (self : SemanticMatcher.t ndarray) need nup cap cup prov :
  SemanticMatcher.config self = SemanticMatcher.default_config →
  (0 <= Capability.proficiency cap <= 1)%Q →
  ∃ m, SemanticMatcher._score_match ndarray_bool cosine self need nup cap cup
         None prov = Some m
       ∧ (0 <= Match.match_score m <= 1)%Q
       ∧ (0 <= Match.confidence m <= 1)%Q.
Proof.
  intros Hcfg Hp.
  pose proof (keyword_similarity_unit need cap) as Hk.
  pose proof (semantic_complementarity_unit nup cup) as Hc.
  pose proof (semantic_feasibility_unit nup cup need) as Hf.
  eexists. split; [reflexivity|].
  cbn [Match.match_score Match.confidence Match.set_uncertainty_factors
       Match.set_verification_methods Match.set_evidence Match.set_confidence
       Match.set_match_score].
  unfold SemanticMatcher._compute_confidence.
  cbn [Match.match_score Match.evidence Match.set_match_score
       Match.set_feasibility_score Match.set_complementarity_score
       Match.add_step Match.new app length bool_decide].
  rewrite Hcfg. cbn [SemanticMatcher.weight_semantic
    SemanticMatcher.weight_complementarity SemanticMatcher.weight_proficiency
    SemanticMatcher.weight_feasibility SemanticMatcher.default_config].
  revert Hk Hc Hf Hp.
  generalize (SemanticMatcher._keyword_similarity need cap).
  generalize (SemanticMatcher._compute_complementarity nup cup).
  generalize (SemanticMatcher._compute_feasibility nup cup need).
  generalize (Capability.proficiency cap).
  intros p f c k Hk Hc Hf Hp.
  split; [split; lra|].
  unfold Py.sum. cbn [fold_left Py.list_truthy].
  change (inject_Z (Z.of_nat 4)) with 4%Q.
  rewrite bool_decide_eq_false_2 by (by intros [? ?]).
  destruct (10 <? _)%nat; split;
    first [apply Qle_shift_div_l | apply Qle_shift_div_r]; lra.
Qed.

(** The instance at a matcher without an embedding model, alice's need and
    bob's capability, whose proficiency is 0.95. *)
Lemma semantic_fallback_score_in_unit_witness :
  ∃ m, SemanticMatcher._score_match (λ _ : unit, Some true) (λ _ _, 1%Q)
         ScenarioMore.semantic_fresh Scenario.need_nav Scenario.alice
         Scenario.cap_nav Scenario.bob None
         (TransparencyEngine.create_provenance_graph "semantic_match") = Some m
       ∧ (0 <= Match.match_score m <= 1)%Q
       ∧ (0 <= Match.confidence m <= 1)%Q.
Proof.
  apply (semantic_fallback_score_in_unit unit (λ _ : unit, Some true)
           (λ _ _, 1%Q) ScenarioMore.semantic_fresh Scenario.need_nav
           Scenario.alice Scenario.cap_nav Scenario.bob
           (TransparencyEngine.create_provenance_graph "semantic_match")).
  - reflexivity.
  - split; by vm_compute.
Defined.

End SemanticFallback.

(** * What a profile shares *)

Section SharedProfile.
Import Sharing.

Lemma to_shareable_dict_hidden c :
  Capability.privacy_level c = PRIVATE ∨ Capability.privacy_level c = CONFIDENTIAL →
  to_shareable_dict c = ∅.
Proof.
  intros H. unfold to_shareable_dict.
  rewrite bool_decide_eq_true_2; [done|]. set_solver.
Qed.

Lemma to_shareable_dict_open c :
  Capability.privacy_level c = PUBLIC ∨ Capability.privacy_level c = NETWORK_PRIVACY →
  dom (to_shareable_dict c) = shared_keys.
Proof.
  intros H. unfold to_shareable_dict.
  rewrite bool_decide_eq_false_2.
  - unfold shared_keys. rewrite !dom_insert_L, dom_singleton_L. set_solver.
  - intros Hin. repeat (apply elem_of_cons in Hin as [Hin|Hin]);
      [destruct H; congruence..|by apply elem_of_nil in Hin].
Qed.

(** X21: what [to_shareable_profile] lists under ["capabilities"].  Every
    entry carries at most the keys type, name, description, proficiency
    and tags; an entry that is not empty is the dictionary of a PUBLIC or
    NETWORK capability of the profile; no PRIVATE capability has an
    entry, while every CONFIDENTIAL capability leaves an empty
    dictionary in the list, so the list has one entry for each capability
    that is not PRIVATE and as many empty ones as the profile has
    CONFIDENTIAL capabilities. *)
Theorem shareable_profile_entries profile :
  let shared := to_shareable_profile_capabilities profile in
  Forall (λ d : gmap string Py.PyVal, dom d ⊆ shared_keys) shared
  ∧ (∀ d, d ∈ shared → d ≠ ∅ →
       ∃ c, c ∈ UserProfile.capabilities profile
            ∧ (Capability.privacy_level c = PUBLIC
               ∨ Capability.privacy_level c = NETWORK_PRIVACY)
            ∧ d = to_shareable_dict c)
  ∧ length shared
    = length (UserProfile.capabilities profile)
      - length (with_level PRIVATE profile)
  ∧ length (filter (λ d, negb (Py.dict_truthy d)) shared)
    = length (with_level CONFIDENTIAL profile).
Proof.
  intros shared. subst shared.
  unfold to_shareable_profile_capabilities, with_level.
  induction (UserProfile.capabilities profile) as [|c caps IH].
  - split; [constructor|]. split; [|done].
    intros d Hd. by apply elem_of_nil in Hd.
  - destruct IH as (IH1 & IH2 & IH3 & IH4).
    pose proof (length_filter (λ c, Capability.privacy_level c = PRIVATE) caps)
      as Hlen.
    assert (Hold : ∀ d,
      d ∈ map to_shareable_dict
            (filter (λ c, Capability.privacy_level c ≠ PRIVATE) caps) →
      d ≠ ∅ →
      ∃ c0, c0 ∈ c :: caps
            ∧ (Capability.privacy_level c0 = PUBLIC
               ∨ Capability.privacy_level c0 = NETWORK_PRIVACY)
            ∧ d = to_shareable_dict c0).
    { intros d Hd Hne. destruct (IH2 d Hd Hne) as (c' & Hc' & Hl & ->).
      exists c'. split; [by right|done]. }
    rewrite !filter_cons.
    destruct (Capability.privacy_level c) eqn:Hlvl.
    + rewrite decide_True, !decide_False by done. cbn [map length].
      assert (Hdom := to_shareable_dict_open c (or_introl Hlvl)).
      split; [constructor; [by rewrite Hdom|done]|].
      split; [|split].
      * intros d [->|Hd]%elem_of_cons Hne; [|by apply Hold].
        exists c. split; [by left|]. by split; [left|].
      * rewrite IH3. lia.
      * rewrite filter_cons, decide_False; [done|].
        unfold Py.dict_truthy. rewrite <- size_dom, Hdom. by vm_compute.
    + rewrite decide_True, !decide_False by done. cbn [map length].
      assert (Hdom := to_shareable_dict_open c (or_intror Hlvl)).
      split; [constructor; [by rewrite Hdom|done]|].
      split; [|split].
      * intros d [->|Hd]%elem_of_cons Hne; [|by apply Hold].
        exists c. split; [by left|]. by split; [right|].
      * rewrite IH3. lia.
      * rewrite filter_cons, decide_False; [done|].
        unfold Py.dict_truthy. rewrite <- size_dom, Hdom. by vm_compute.
    + rewrite decide_False by (by intros []).
      rewrite decide_True, decide_False by done. cbn [length].
      split; [done|]. split; [done|]. split; [|done].
      rewrite IH3. lia.
    + rewrite decide_True, decide_False, decide_True by done. cbn [map length].
      assert (Hempty := to_shareable_dict_hidden c (or_intror Hlvl)).
      split; [constructor; [rewrite Hempty; set_solver|done]|].
      split; [|split].
      * intros d [->|Hd]%elem_of_cons Hne; [done|by apply Hold].
      * rewrite IH3. lia.
      * rewrite filter_cons, decide_True; [cbn [length]; by rewrite IH4|].
        rewrite Hempty. by vm_compute.
Qed.

End SharedProfile.
